(** * astroid: module resolution cache and lexical scope lookup

    A shallow embedding of [astroid/manager.py] (class [AstroidManager]) and
    of [astroid/nodes/scoped_nodes/mixin.py] (classes [LocalsDictNodeNG] and
    [ComprehensionScope]), followed by the properties established for them.

    Layout: Python-level foundations ([Py]), the scoped-node mixin
    ([Mixin]), the manager ([Manager]), the vocabulary in which the
    properties are stated ([MixinTerms], [ManagerTerms]), then the
    properties themselves ([MixinFacts], [ManagerFacts]). *)

From Stdlib Require Import ZArith String Ascii List Lia Bool.
From stdpp Require Import base decidable option list gmap strings.
From Equations Require Import Equations.
Import ListNotations.

#[local] Set Warnings "-register-all".
#[local] Open Scope string_scope.
#[local] Open Scope list_scope.

(* ===================================================================== *)
(** * Python exceptions and fallible results                              *)
(* ===================================================================== *)

Module Py.

(** The exception classes the two source files raise, catch or let through.
    [OtherError] stands for any further class deriving directly from
    [Exception].  System-exiting signals outside [Exception]
    (KeyboardInterrupt, SystemExit) are not errors and are not modelled. *)
Inductive ExcClass : Type :=
| Exception
| LookupError
| KeyError
| IndexError
| AttributeError
| ValueError
| TypeError
| ImportError
| OSError
| RecursionError
| NoSourceFile
| AstroidError
| AstroidBuildingError
| AstroidImportError
| ParentMissingError
| OtherError (tag : nat).

#[export] Instance ExcClass_eq_dec : EqDecision ExcClass.
Proof. solve_decision. Defined.

(** Method resolution order of each class: the class, then its bases. *)
Definition mro (c : ExcClass) : list ExcClass :=
  match c with
  | Exception => [Exception]
  | LookupError => [LookupError; Exception]
  | KeyError => [KeyError; LookupError; Exception]
  | IndexError => [IndexError; LookupError; Exception]
  | AttributeError => [AttributeError; Exception]
  | ValueError => [ValueError; Exception]
  | TypeError => [TypeError; Exception]
  | ImportError => [ImportError; Exception]
  | OSError => [OSError; Exception]
  | RecursionError => [RecursionError; Exception]
  | NoSourceFile => [NoSourceFile; Exception]
  | AstroidError => [AstroidError; Exception]
  | AstroidBuildingError => [AstroidBuildingError; AstroidError; Exception]
  | AstroidImportError =>
      [AstroidImportError; AstroidBuildingError; AstroidError; Exception]
  | ParentMissingError => [ParentMissingError; AstroidError; Exception]
  | OtherError t => [OtherError t; Exception]
  end.

Definition issubclass (c d : ExcClass) : bool :=
  existsb (fun b => bool_decide (b = d)) (mro c).

(** A traceback is the list of frames the interpreter attached. *)
Definition Traceback := list string.

(** An exception object: its class, its message template and the keyword
    fields the sources set on it.  [exc_traceback] is the object's
    [__traceback__]: what a collaborator's exception arrives with, what
    [with_traceback] sets, and the frame the interpreter links to an
    object the program keeps and raises again ([add_frame]). *)
Inductive PyExc : Type := mkExc {
  exc_class : ExcClass;
  exc_message : string;
  exc_modname : option string;
  exc_path : option string;
  exc_class_repr : option string;
  exc_error : option PyExc;
  exc_cause : option PyExc;
  exc_traceback : option Traceback }.

Definition new_exc (c : ExcClass) (msg : string) : PyExc :=
  mkExc c msg None None None None None None.

Definition isinstance (e : PyExc) (c : ExcClass) : bool :=
  issubclass (exc_class e) c.

(** [e.with_traceback(tb)]: sets [__traceback__] and returns [e]. *)
Definition with_traceback (e : PyExc) (tb : option Traceback) : PyExc :=
  mkExc (exc_class e) (exc_message e) (exc_modname e) (exc_path e)
        (exc_class_repr e) (exc_error e) (exc_cause e) tb.

(** What a [raise] in the function [frame] does to the object raised: the
    interpreter links the frame in front of the traceback the object
    carries, so that an object raised again and again carries a longer
    traceback each time, unless the program resets it. *)
Definition add_frame (frame : string) (e : PyExc) : PyExc :=
  with_traceback e (Some (frame :: default [] (exc_traceback e))).

(** [raise e from c]: sets [__cause__]. *)
Definition raise_from (e c : PyExc) : PyExc :=
  mkExc (exc_class e) (exc_message e) (exc_modname e) (exc_path e)
        (exc_class_repr e) (exc_error e) (Some c) (exc_traceback e).

(** The outcome of evaluating a Python expression or call. *)
Inductive Result (A : Type) : Type :=
| Ok (a : A)
| Raise (e : PyExc).
Arguments Ok {A} a.
Arguments Raise {A} e.

(** [try: r  except cls as e: h e] on a computation without state. *)
Definition try_except {A} (r : Result A) (cls : ExcClass)
    (h : PyExc -> Result A) : Result A :=
  match r with
  | Ok a => Ok a
  | Raise e => if isinstance e cls then h e else Raise e
  end.

(** ** Insertion-ordered dictionaries with string keys

    [keys()] of a Python dict lists the keys in insertion order, so the
    table is an association list; a key occurs at most once in any dict
    built by the operations below. *)
Definition dict (V : Type) : Type := list (string * V).

Fixpoint dict_get {V} (d : dict V) (k : string) : option V :=
  match d with
  | [] => None
  | (k', v) :: d' => if String.eqb k k' then Some v else dict_get d' k
  end.

(** [k in d] *)
Definition dict_contains {V} (d : dict V) (k : string) : bool :=
  match dict_get d k with Some _ => true | None => false end.

(** [d[k]] *)
Definition dict_getitem {V} (d : dict V) (k : string) : Result V :=
  match dict_get d k with
  | Some v => Ok v
  | None => Raise (new_exc KeyError k)
  end.

(** [d[k] = v]: overwrite in place, or append a new key at the end. *)
Fixpoint dict_set {V} (d : dict V) (k : string) (v : V) : dict V :=
  match d with
  | [] => [(k, v)]
  | (k', v') :: d' =>
      if String.eqb k k' then (k', v) :: d' else (k', v') :: dict_set d' k v
  end.

(** [d.setdefault(k, v)]: the dict afterwards and the value returned. *)
Definition dict_setdefault {V} (d : dict V) (k : string) (v : V) : dict V * V :=
  match dict_get d k with
  | Some v' => (d, v')
  | None => (dict_set d k v, v)
  end.

(** [list(d.keys())] *)
Definition dict_keys {V} (d : dict V) : list string := map fst d.

End Py.
Export Py.

(* ===================================================================== *)
(** * nodes/scoped_nodes/mixin.py                                         *)
(* ===================================================================== *)

Module Mixin.

(** The node classes that matter to scoping.  [Module_], [FunctionDef],
    [Lambda] and [ClassDef] derive from [LocalsDictNodeNG]; the four
    comprehension classes derive from [ComprehensionScope]; [OtherNode] is
    any node class that defines no scope (statements, expressions). *)
Inductive NodeKind : Type :=
| Module_
| FunctionDef
| Lambda
| ClassDef
| GeneratorExp
| DictComp
| SetComp
| ListComp
| OtherNode.

(** A tree node with the attributes the mixin reads and writes.  [parent]
    is the structural back-reference, [locals] the scope table, [name] the
    [.name] attribute ([None] when the class has none) and [body] the child
    list ([None] when the class has no list-valued [body]).  A node stored
    in a table or body is the value the node had when it was stored. *)
Inductive NodeNG : Type := mkNodeNG {
  kind : NodeKind;
  name : option string;
  parent : option NodeNG;
  locals : dict (list NodeNG);
  body : option (list NodeNG) }.

Definition with_locals (n : NodeNG) (l : dict (list NodeNG)) : NodeNG :=
  mkNodeNG (kind n) (name n) (parent n) l (body n).

Definition with_body (n : NodeNG) (b : option (list NodeNG)) : NodeNG :=
  mkNodeNG (kind n) (name n) (parent n) (locals n) b.

Definition with_parent (n : NodeNG) (p : option NodeNG) : NodeNG :=
  mkNodeNG (kind n) (name n) p (locals n) (body n).

(** [isinstance(n, LocalsDictNodeNG)] *)
Definition is_LocalsDictNodeNG (n : NodeNG) : bool :=
  match kind n with OtherNode => false | _ => true end.

(** [isinstance(n, scoped_nodes.ClassDef)] *)
Definition is_ClassDef (n : NodeNG) : bool :=
  match kind n with ClassDef => true | _ => false end.

(** [isinstance(n, ComprehensionScope)] *)
Definition is_ComprehensionScope (n : NodeNG) : bool :=
  match kind n with
  | GeneratorExp | DictComp | SetComp | ListComp => true
  | _ => false
  end.

(** Number of structural ancestors. *)
Fixpoint height (n : NodeNG) : nat :=
  match parent n with
  | None => 0
  | Some p => S (height p)
  end.

(** The topmost structural ancestor. *)
Fixpoint root (n : NodeNG) : NodeNG :=
  match parent n with
  | None => n
  | Some p => root p
  end.

(** Modelled from the spec: [n.scope()] on a node whose class defines no
    scope.  That method, [node_classes.NodeNG.scope], is not among the
    sources at hand; it yields the nearest enclosing scope of the node,
    reached through its structural parent, and fails (ParentMissingError)
    on a parentless node, which has none.  On a [LocalsDictNodeNG] the
    method is the mixin's own, [LocalsDictNodeNG.scope], which returns
    [self]. *)
Fixpoint scope (n : NodeNG) : Result NodeNG :=
  if is_LocalsDictNodeNG n then Ok n
  else match parent n with
       | None => Raise (new_exc ParentMissingError "No parent for node")
       | Some p => scope p
       end.

(** [n.parent and n.parent.scope()] *)
Definition parent_scope (n : NodeNG) : Result (option NodeNG) :=
  match parent n with
  | None => Ok None
  | Some p =>
      match scope p with
      | Ok q => Ok (Some q)
      | Raise e => Raise e
      end
  end.

(** Loop variant of the upward walk. *)
Definition walk_measure (pscope : option NodeNG) : nat :=
  match pscope with
  | None => 0
  | Some p => S (height p)
  end.

Lemma scope_height (n : NodeNG) : forall q, scope n = Ok q -> height q <= height n.
Proof.
  revert n. fix IH 1. intros [k nm [p|] l b] q; unfold scope; fold scope;
    unfold is_LocalsDictNodeNG; simpl.
  - destruct k; intros E; try (injection E as <-; simpl; lia).
    apply IH in E. lia.
  - destruct k; intros E; try (injection E as <-; simpl; lia). discriminate.
Qed.

Lemma parent_scope_measure (n : NodeNG) (ps : option NodeNG) :
  parent_scope n = Ok ps -> walk_measure ps < S (height n).
Proof.
  unfold parent_scope. destruct n as [k nm [p|] l b]; simpl.
  - destruct (scope p) as [q|e] eqn:E; [|discriminate].
    intros [= <-]. apply scope_height in E. simpl. lia.
  - intros [= <-]. simpl. lia.
Qed.

Definition inspect {A : Type} (x : A) : { y : A | x = y } := exist _ x eq_refl.

(** The [while pscope is not None] loop of [_scope_lookup], up to the point
    where it leaves: [Ok (Some p)] when it reaches the first [p] that is
    not a [ClassDef] (the loop then returns [p.scope_lookup(node, name)]),
    [Ok None] when [pscope] becomes [None] (the code then falls through to
    [builtin_lookup]). *)
Equations? enclosing_non_class (pscope : option NodeNG) : Result (option NodeNG)
  by wf (walk_measure pscope) lt :=
  enclosing_non_class None := Ok None;
  enclosing_non_class (Some p) with inspect (is_ClassDef p) := {
    | exist _ false _ := Ok (Some p);
    | exist _ true _ with inspect (parent_scope p) := {
        | exist _ (Raise e) _ := Raise e;
        | exist _ (Ok ps) E := enclosing_non_class ps } }.
Proof. apply parent_scope_measure in E. exact E. Qed.

Lemma enclosing_non_class_measure (pscope : option NodeNG) :
  forall p, enclosing_non_class pscope = Ok (Some p) ->
            walk_measure (Some p) <= walk_measure pscope.
Proof.
  funelim (enclosing_non_class pscope); intros q Hq; try discriminate.
  - injection Hq as <-. lia.
  - apply H in Hq. pose proof (parent_scope_measure _ _ E). simpl in *. lia.
Qed.

(** The collaborators the mixin imports: the order-sensitive statement
    filter ([astroid.filter_statements._filter_stmts]) and the lookup in the
    built-in pseudo-scope ([scoped_nodes.utils.builtin_lookup]). *)
Class Collaborators : Type := {
  _filter_stmts : NodeNG -> list NodeNG -> NodeNG -> Z -> Result (list NodeNG);
  builtin_lookup : string -> Result (NodeNG * list NodeNG) }.

Section ScopeLookup.
Context `{Collaborators}.

(** The first statement of [_scope_lookup]:
    [try: stmts = _filter_stmts(node, self.locals[name], self, offset)
     except KeyError: stmts = ()] *)
Definition own_stmts (self node : NodeNG) (name : string) (offset : Z)
  : Result (list NodeNG) :=
  try_except
    (match dict_getitem (locals self) name with
     | Ok l => _filter_stmts node l self offset
     | Raise e => Raise e
     end)
    KeyError (fun _ => Ok []).

(** [LocalsDictNodeNG._scope_lookup(self, node, name, offset=0)].  The
    recursive call is [pscope.scope_lookup(node, name)], for which see
    [scope_lookup] below. *)
Equations? _scope_lookup (self node : NodeNG) (name : string) (offset : Z)
  : Result (NodeNG * list NodeNG) by wf (height self) lt :=
  _scope_lookup self node name offset with own_stmts self node name offset := {
    | Raise e := Raise e;
    | Ok (s :: ss) := Ok (self, s :: ss);
    | Ok [] with inspect (parent_scope self) := {
        | exist _ (Raise e) _ := Raise e;
        | exist _ (Ok pscope) E1 with inspect (enclosing_non_class pscope) := {
            | exist _ (Raise e) _ := Raise e;
            | exist _ (Ok None) _ := builtin_lookup name;
            | exist _ (Ok (Some p)) E2 := _scope_lookup p node name 0 } } }.
Proof.
  apply parent_scope_measure in E1.
  apply enclosing_non_class_measure in E2. simpl in E2. lia.
Qed.

(** Modelled from the spec: [pscope.scope_lookup(node, name)] as the
    upward walk calls it on the first enclosing scope that is not a class.
    For a [ComprehensionScope] the source binds [scope_lookup] to
    [_scope_lookup]; the [scope_lookup] methods of modules, functions and
    lambdas are not among the sources at hand, and such a scope delegates
    the lookup to itself, re-entering the first step of the walk for that
    scope (the offset is left at its default). *)
Definition scope_lookup (self node : NodeNG) (name : string)
  : Result (NodeNG * list NodeNG) :=
  _scope_lookup self node name 0.

End ScopeLookup.

(** [LocalsDictNodeNG.set_local(self, name, stmt)]:
    [self.locals.setdefault(name, []).append(stmt)] *)
Definition set_local (self : NodeNG) (name : string) (stmt : NodeNG) : NodeNG :=
  let '(d, l) := dict_setdefault (locals self) name [] in
  with_locals self (dict_set d name (l ++ [stmt])).

(** [__setitem__ = set_local] *)
Definition __setitem__ : NodeNG -> string -> NodeNG -> NodeNG := set_local.

(** [self._append_node(child)]: [self.body.append(child); child.parent = self].
    Yields the scope and the child afterwards. *)
Definition _append_node (self child : NodeNG) : Result (NodeNG * NodeNG) :=
  match body self with
  | None => Raise (new_exc AttributeError "body")
  | Some b =>
      let child' := with_parent child (Some self) in
      Ok (with_body self (Some (b ++ [child'])), child')
  end.

(** [x.name] *)
Definition get_name (x : NodeNG) : Result string :=
  match name x with
  | Some s => Ok s
  | None => Raise (new_exc AttributeError "name")
  end.

(** [name or child_node.name], [name] being [None] or a string. *)
Definition name_or (name : option string) (child_node : NodeNG) : Result string :=
  match name with
  | Some s => if String.eqb s "" then get_name child_node else Ok s
  | None => get_name child_node
  end.

(** [LocalsDictNodeNG.add_local_node(self, child_node, name=None)]: the
    outcome, with the scope and the child as the call leaves them (an
    exception leaves the mutations made before it). *)
Definition add_local_node (self child_node : NodeNG) (name : option string)
  : Result unit * (NodeNG * NodeNG) :=
  let appended :=
    if bool_decide (name = Some "__class__") then Ok (self, child_node)
    else _append_node self child_node in
  match appended with
  | Raise e => (Raise e, (self, child_node))
  | Ok (self1, child1) =>
      match name_or name child1 with
      | Raise e => (Raise e, (self1, child1))
      | Ok nm => (Ok tt, (set_local self1 nm child1, child1))
      end
  end.

(** [list[0]] *)
Definition first_item (l : list NodeNG) : Result NodeNG :=
  match l with
  | x :: _ => Ok x
  | [] => Raise (new_exc IndexError "list index out of range")
  end.

(** [LocalsDictNodeNG.__getitem__(self, item)]: [self.locals[item][0]] *)
Definition __getitem__ (self : NodeNG) (item : string) : Result NodeNG :=
  match dict_getitem (locals self) item with
  | Ok l => first_item l
  | Raise e => Raise e
  end.

(** [LocalsDictNodeNG.keys(self)] *)
Definition keys (self : NodeNG) : list string := dict_keys (locals self).

(** [LocalsDictNodeNG.__iter__(self)]: the names [iter(self.keys())] yields. *)
Definition __iter__ (self : NodeNG) : list string := keys self.

(** [[f(x) for x in l]] with a fallible [f]: the first exception ends it. *)
Fixpoint comprehension {A B} (f : A -> Result B) (l : list A) : Result (list B) :=
  match l with
  | [] => Ok []
  | x :: l' =>
      match f x with
      | Raise e => Raise e
      | Ok y =>
          match comprehension f l' with
          | Raise e => Raise e
          | Ok ys => Ok (y :: ys)
          end
      end
  end.

(** [LocalsDictNodeNG.values(self)]: [[self[key] for key in self.keys()]] *)
Definition values (self : NodeNG) : Result (list NodeNG) :=
  comprehension (__getitem__ self) (keys self).

(** [LocalsDictNodeNG.items(self)]: [list(zip(self.keys(), self.values()))] *)
Definition items (self : NodeNG) : Result (list (string * NodeNG)) :=
  match values self with
  | Ok vs => Ok (combine (keys self) vs)
  | Raise e => Raise e
  end.

(** [LocalsDictNodeNG.__contains__(self, name)] *)
Definition __contains__ (self : NodeNG) (name : string) : bool :=
  dict_contains (locals self) name.

End Mixin.

(* ===================================================================== *)
(** * manager.py                                                          *)
(* ===================================================================== *)

Module Manager.

(** ** String methods used by the manager *)

(** [s.split(c)] for a one-character separator. *)
Fixpoint split_on (c : ascii) (s : string) : list string :=
  match s with
  | EmptyString => [EmptyString]
  | String a s' =>
      if Ascii.eqb a c then EmptyString :: split_on c s'
      else match split_on c s' with
           | h :: t => String a h :: t
           | [] => [String a EmptyString]
           end
  end.

(** [s.replace(c, d)] for one-character [c] and [d]. *)
Fixpoint replace_char (c d : ascii) (s : string) : string :=
  match s with
  | EmptyString => EmptyString
  | String a s' => String (if Ascii.eqb a c then d else a) (replace_char c d s')
  end.

(** [s.rsplit(sep, 1)] for a non-empty [sep]: [Some (before, after)] around
    the rightmost occurrence of [sep], [None] when [sep] does not occur (the
    one-element list, which a two-name unpacking rejects). *)
Fixpoint rsplit_once (sep s : string) : option (string * string) :=
  match s with
  | EmptyString => None
  | String a s' =>
      match rsplit_once sep s' with
      | Some (l, r) => Some (String a l, r)
      | None =>
          if String.prefix sep s
          then Some (EmptyString,
                     String.substring (String.length sep)
                                      (String.length s - String.length sep) s)
          else None
      end
  end.

(** [a, b = s.rsplit(sep, 1)] *)
Definition unpack_rsplit (sep s : string) : Result (string * string) :=
  match rsplit_once sep s with
  | Some p => Ok p
  | None => Raise (new_exc ValueError "not enough values to unpack")
  end.

Definition newline : string := String (Ascii.ascii_of_nat 10) EmptyString.

Definition ZIP_IMPORT_EXTS : list string :=
  [".zip"; ".egg"; ".whl"; ".pyz"; ".pyzw"].

(** ** Data *)

(** [astroid.interpreter._import.spec.ModuleType] *)
Inductive ModuleType : Type :=
| C_BUILTIN
| C_EXTENSION
| PKG_DIRECTORY
| PY_CODERESOURCE
| PY_COMPILED
| PY_FROZEN
| PY_RESOURCE
| PY_SOURCE
| PY_ZIPMODULE
| PY_NAMESPACE.

#[export] Instance ModuleType_eq_dec : EqDecision ModuleType.
Proof. solve_decision. Defined.

(** [spec.ModuleSpec] *)
Record ModuleSpec : Type := mkModuleSpec {
  type : ModuleType;
  location : option string;
  submodule_search_locations : option (list string) }.

(** A built module tree ([nodes.Module]) as the manager sees it: its
    [name], its [file], and an identity telling two builds apart. *)
Record AstModule : Type := mkAstModule {
  name : string;
  file : option string;
  uid : nat }.

#[export] Instance AstModule_eq_dec : EqDecision AstModule.
Proof. solve_decision. Defined.

(** A live runtime object.  Reading an attribute either yields its value or
    raises ([AttributeError] when the object does not expose it). *)
Inductive PyObject : Type := mkPyObject {
  is_type : bool;
  __class__ : Result PyObject;
  __module__ : Result string;
  __name__ : Result string;
  __file__ : Result string;
  __repr__ : Result string }.

(** What [_mod_file_cache] holds: a spec, or the exception of a failed
    lookup. *)
Inductive CacheValue : Type :=
| CachedSpec (s : ModuleSpec)
| CachedError (e : PyExc).

(** Handles of the objects the manager only passes around. *)
Definition Hook : Type := nat.
Definition Transform : Type := nat.
Definition Ref : Type := nat.
Definition ZipImporter : Type := nat.
Definition ImportlibSpec : Type := string.

(** Modelled from the spec: [astroid.transforms.TransformVisitor], absent
    from the sources at hand, is the transform pipeline: callbacks are
    registered on it and [visit] applies the registered callbacks to a
    tree. *)
Record TransformVisitor : Type := mkTransformVisitor {
  transforms : list Transform }.

(** The class attribute [AstroidManager.brain].  The two caches, the hook
    list and the whitelist are objects every instance shares;
    [_transform] is a reference to a [TransformVisitor] object. *)
Record Brain : Type := mkBrain {
  astroid_cache : gmap string AstModule;
  _mod_file_cache : gmap (string * option string) CacheValue;
  _failed_import_hooks : list Hook;
  always_load_extensions : bool;
  optimize_ast : bool;
  extension_package_whitelist : gset string;
  _transform : Ref }.

(** The attributes [__init__] stores on an instance by value or by
    reference of its own: the two flags and the reference to the
    [TransformVisitor] current at construction.  The other attributes are
    the brain's shared objects themselves. *)
Record AstroidManager : Type := mkAstroidManager {
  self_always_load_extensions : bool;
  self_optimize_ast : bool;
  self__transform : Ref }.

(** The process state: the brain, the heap of [TransformVisitor] objects,
    and the world outside the manager (file system, interpreter, working
    directory). *)
Record State (W : Type) : Type := mkState {
  brain : Brain;
  visitors : gmap Ref TransformVisitor;
  world : W }.
Arguments mkState {W}.
Arguments brain {W}.
Arguments visitors {W}.
Arguments world {W}.

(** Observation points, recorded in call order. *)
Inductive Event : Type :=
| EvHook (h : Hook) (modname : string)
| EvSpecLookup (modname : string) (context_file : option string)
| EvTransform (t : Transform) (node : AstModule).

#[export] Instance Event_eq_dec : EqDecision Event.
Proof. solve_decision. Defined.

Record Machine (W : Type) : Type := mkMachine {
  state : State W;
  trace : list Event }.
Arguments mkMachine {W}.
Arguments state {W}.
Arguments trace {W}.

(** ** The collaborators

    Functions of [astroid.modutils], [astroid.builder],
    [astroid.raw_building], [os], [zipimport] and [importlib], the
    registered hooks and the registered transforms.  Those that only touch
    the world act on [W]; those that re-enter the manager act on the whole
    state. *)
Class Env (W : Type) : Type := {
  get_source_file : string -> W -> Result string * W;
  modpath_from_file : string -> W -> Result (list string) * W;
  file_info_from_modpath :
    list string -> option string -> W -> Result ModuleSpec * W;
  is_standard_module : string -> W -> Result bool * W;
  is_module_name_part_of_extension_package_whitelist :
    string -> gset string -> bool;
  is_python_source : string -> bool;
  load_module_from_name : string -> W -> Result PyObject * W;
  os_getcwd : W -> Result string * W;
  os_chdir : string -> W -> Result unit * W;
  os_path_dirname : string -> string;
  os_path_sep : ascii;
  zipimporter : string -> W -> Result ZipImporter * W;
  is_package : ZipImporter -> string -> W -> Result bool * W;
  get_source : ZipImporter -> string -> W -> Result (option string) * W;
  file_build :
    AstroidManager -> string -> string -> State W -> Result AstModule * State W;
  string_build :
    AstroidManager -> option string -> string -> option string ->
    State W -> Result AstModule * State W;
  module_build :
    AstroidManager -> PyObject -> string -> State W -> Result AstModule * State W;
  build_namespace_package_module :
    string -> option (list string) -> State W -> Result AstModule * State W;
  call_hook : Hook -> string -> State W -> Result AstModule * State W;
  apply_transform :
    Transform -> AstModule -> State W -> Result AstModule * State W;
  module_getattr :
    AstModule -> string -> State W -> Result (list AstModule) * State W;
  module_igetattr :
    AstModule -> string -> State W -> Result (list AstModule) * State W;
  instantiate_class : AstModule -> State W -> Result AstModule * State W;
  _astroid_bootstrapping : State W -> Result unit * State W;
  brain_modules_iterdir : W -> Result (list (string * string)) * W;
  find_spec : string -> W -> Result ImportlibSpec * W;
  module_from_spec : ImportlibSpec -> W -> Result PyObject * W;
  exec_module : ImportlibSpec -> PyObject -> State W -> Result unit * State W }.

(** ** The state-and-exception monad *)

Definition M (W A : Type) : Type := Machine W -> Result A * Machine W.

Definition ret {W A} (a : A) : M W A := fun m => (Ok a, m).

(** [raise e]: the outcome is the object [e] as the program hands it to the
    interpreter.  The frames the interpreter links to the object are
    followed where the program keeps the object it raises, see
    [raise_cached]. *)
Definition raise {W A} (e : PyExc) : M W A := fun m => (Raise e, m).

Definition bind {W A B} (c : M W A) (k : A -> M W B) : M W B :=
  fun m =>
    match c m with
    | (Ok a, m') => k a m'
    | (Raise e, m') => (Raise e, m')
    end.

#[export] Instance M_ret {W} : MRet (M W) := fun A a => ret a.
#[export] Instance M_bind {W} : MBind (M W) := fun A B k c => bind c k.
#[export] Instance M_fmap {W} : FMap (M W) :=
  fun A B f c => bind c (fun a => ret (f a)).

(** A call that only touches the world. *)
Definition in_world {W A} (f : W -> Result A * W) : M W A :=
  fun m =>
    let '(r, w) := f (world (state m)) in
    (r, mkMachine (mkState (brain (state m)) (visitors (state m)) w) (trace m)).

(** A call that may re-enter the manager. *)
Definition in_state {W A} (f : State W -> Result A * State W) : M W A :=
  fun m => let '(r, s) := f (state m) in (r, mkMachine s (trace m)).

Definition record {W} (ev : Event) : M W unit :=
  fun m => (Ok tt, mkMachine (state m) (trace m ++ [ev])).

Definition get_brain {W} : M W Brain := fun m => (Ok (brain (state m)), m).

Definition set_brain {W} (b : Brain) : M W unit :=
  fun m => (Ok tt, mkMachine (mkState b (visitors (state m)) (world (state m)))
                             (trace m)).

Definition get_visitors {W} : M W (gmap Ref TransformVisitor) :=
  fun m => (Ok (visitors (state m)), m).

Definition set_visitors {W} (v : gmap Ref TransformVisitor) : M W unit :=
  fun m => (Ok tt, mkMachine (mkState (brain (state m)) v (world (state m)))
                             (trace m)).

(** [try: body  except cls as e: handler e] *)
Definition try_catch {W A} (body : M W A) (cls : ExcClass)
    (handler : PyExc -> M W A) : M W A :=
  fun m =>
    match body m with
    | (Ok a, m') => (Ok a, m')
    | (Raise e, m') =>
        if isinstance e cls then handler e m' else (Raise e, m')
    end.

(** [try: body  except cls1 as e: h1 e  except cls2 as e: h2 e] *)
Definition try_catch2 {W A} (body : M W A) (cls1 : ExcClass)
    (h1 : PyExc -> M W A) (cls2 : ExcClass) (h2 : PyExc -> M W A) : M W A :=
  fun m =>
    match body m with
    | (Ok a, m') => (Ok a, m')
    | (Raise e, m') =>
        if isinstance e cls1 then h1 e m'
        else if isinstance e cls2 then h2 e m'
        else (Raise e, m')
    end.

(** Evaluating an expression whose outcome is known. *)
Definition eval {W A} (r : Result A) : M W A := fun m => (r, m).

(** [try: body  finally: cleanup] *)
Definition try_finally {W A} (body : M W A) (cleanup : M W unit) : M W A :=
  fun m =>
    let '(r, m') := body m in
    match cleanup m' with
    | (Ok _, m'') => (r, m'')
    | (Raise e, m'') => (Raise e, m'')
    end.

Definition with_astroid_cache (b : Brain) (c : gmap string AstModule) : Brain :=
  mkBrain c (_mod_file_cache b) (_failed_import_hooks b)
          (always_load_extensions b) (optimize_ast b)
          (extension_package_whitelist b) (_transform b).

Definition with_mod_file_cache (b : Brain)
    (c : gmap (string * option string) CacheValue) : Brain :=
  mkBrain (astroid_cache b) c (_failed_import_hooks b)
          (always_load_extensions b) (optimize_ast b)
          (extension_package_whitelist b) (_transform b).

Definition with_failed_import_hooks (b : Brain) (h : list Hook) : Brain :=
  mkBrain (astroid_cache b) (_mod_file_cache b) h
          (always_load_extensions b) (optimize_ast b)
          (extension_package_whitelist b) (_transform b).

Definition with_transform (b : Brain) (r : Ref) : Brain :=
  mkBrain (astroid_cache b) (_mod_file_cache b) (_failed_import_hooks b)
          (always_load_extensions b) (optimize_ast b)
          (extension_package_whitelist b) r.

(** [safe_repr(obj)] *)
Definition safe_repr (obj : PyObject) : string :=
  match __repr__ obj with
  | Ok s => s
  | Raise _ => "???"
  end.

(** A string / an optional string used as a condition. *)
Definition truthy (s : string) : bool := negb (String.eqb s "").

Definition truthy_opt (s : option string) : bool :=
  match s with
  | Some s => truthy s
  | None => false
  end.

Section Operations.
Context {W : Type} `{Env W}.

(** ** Construction and the transform pipeline *)

(** [AstroidManager.__init__(self)] *)
Definition __init__ : M W AstroidManager :=
  b ← get_brain;
  ret (mkAstroidManager (always_load_extensions b) (optimize_ast b) (_transform b)).

(** The [TransformVisitor] object a reference points to. *)
Definition deref (vs : gmap Ref TransformVisitor) (r : Ref) : TransformVisitor :=
  default (mkTransformVisitor []) (vs !! r).

(** Modelled from the spec: [TransformVisitor.register_transform], absent
    from the sources at hand, adds a callback to the pipeline. *)
Definition TransformVisitor_register (v : TransformVisitor) (t : Transform)
  : TransformVisitor :=
  mkTransformVisitor (transforms v ++ [t]).

Fixpoint remove_first (t : Transform) (l : list Transform) : option (list Transform) :=
  match l with
  | [] => None
  | x :: l' =>
      if Nat.eqb x t then Some l'
      else match remove_first t l' with
           | Some r => Some (x :: r)
           | None => None
           end
  end.

(** Modelled from the spec: [TransformVisitor.unregister_transform], absent
    from the sources at hand, removes a registered callback (and fails on
    one that is not registered). *)
Definition TransformVisitor_unregister (v : TransformVisitor) (t : Transform)
  : Result TransformVisitor :=
  match remove_first t (transforms v) with
  | Some l => Ok (mkTransformVisitor l)
  | None => Raise (new_exc ValueError "list.remove(x): x not in list")
  end.

(** [self.register_transform(...)]: the property returns
    [self._transform.register_transform]. *)
Definition register_transform (self : AstroidManager) (t : Transform) : M W unit :=
  vs ← get_visitors;
  let v := deref vs (self__transform self) in
  set_visitors (<[self__transform self := TransformVisitor_register v t]> vs).

(** [self.unregister_transform(...)]: the property returns
    [self._transform.unregister_transform]. *)
Definition unregister_transform (self : AstroidManager) (t : Transform) : M W unit :=
  vs ← get_visitors;
  let v := deref vs (self__transform self) in
  v' ← eval (TransformVisitor_unregister v t);
  set_visitors (<[self__transform self := v']> vs).

(** [self.builtins_module]: [self.astroid_cache["builtins"]] *)
Definition builtins_module : M W AstModule :=
  b ← get_brain;
  match astroid_cache b !! "builtins" with
  | Some m => ret m
  | None => raise (new_exc KeyError "builtins")
  end.

(** Modelled from the spec: [TransformVisitor.visit(node)] applies the
    callbacks registered on the visitor, in registration order. *)
Fixpoint visit (ts : list Transform) (node : AstModule) : M W AstModule :=
  match ts with
  | [] => ret node
  | t :: ts' =>
      record (EvTransform t node);;
      node' ← in_state (apply_transform t node);
      visit ts' node'
  end.

(** [visit_transforms(self, node)]: [self._transform.visit(node)] *)
Definition visit_transforms (self : AstroidManager) (node : AstModule)
  : M W AstModule :=
  vs ← get_visitors;
  visit (transforms (deref vs (self__transform self))) node.

(** ** Builders *)

(** [ast_from_string(self, data, modname="", filepath=None)] *)
Definition ast_from_string (self : AstroidManager) (data modname : string)
    (filepath : option string) : M W AstModule :=
  in_state (string_build self (Some data) modname filepath).

(** [_build_stub_module(self, modname)] *)
Definition _build_stub_module (self : AstroidManager) (modname : string)
  : M W AstModule :=
  in_state (string_build self (Some "") modname None).

(** [_build_namespace_module(self, modname, path)] *)
Definition _build_namespace_module (self : AstroidManager) (modname : string)
    (path : option (list string)) : M W AstModule :=
  in_state (build_namespace_package_module modname path).

(** [_can_load_extension(self, modname)] *)
Definition _can_load_extension (self : AstroidManager) (modname : string)
  : M W bool :=
  if self_always_load_extensions self then ret true
  else
    std ← in_world (is_standard_module modname);
    if (std : bool) then ret true
    else
      b ← get_brain;
      ret (is_module_name_part_of_extension_package_whitelist
             modname (extension_package_whitelist b)).

(** ** Archive import *)

(** The body of the second [try] of [zip_import_data]. *)
Definition zip_attempt (self : AstroidManager) (filepath ext eggpath resource : string)
  : M W AstModule :=
  importer ← in_world (zipimporter (String.append eggpath ext));
  let zmodname := replace_char os_path_sep "."%char resource in
  pkg ← in_world (is_package importer resource);
  let zmodname :=
    if (pkg : bool) then String.append zmodname ".__init__" else zmodname in
  source ← in_world (get_source importer resource);
  in_state (string_build self source zmodname (Some filepath)).

(** The [for ext in ZIP_IMPORT_EXTS] loop of [zip_import_data], from the
    suffixes [exts] on.  ([filepath] is [None] when the caller has no
    location to pass; [None.rsplit] is then an [AttributeError].) *)
Fixpoint zip_import_loop (self : AstroidManager) (filepath : option string)
    (exts : list string) : M W (option AstModule) :=
  match exts with
  | [] => ret None
  | ext :: rest =>
      match filepath with
      | None => raise (new_exc AttributeError "rsplit")
      | Some fp =>
          match unpack_rsplit (String.append ext (String os_path_sep EmptyString)) fp with
          | Raise e =>
              if isinstance e ValueError then zip_import_loop self filepath rest
              else raise e
          | Ok (eggpath, resource) =>
              try_catch
                (module ← zip_attempt self fp ext eggpath resource;
                 ret (Some module))
                Exception
                (fun _ => zip_import_loop self filepath rest)
          end
      end
  end.

(** [zip_import_data(self, filepath)].  (The guard [if zipimport is None]
    never fires: the module is imported unconditionally.) *)
Definition zip_import_data (self : AstroidManager) (filepath : option string)
  : M W (option AstModule) :=
  zip_import_loop self filepath ZIP_IMPORT_EXTS.

(** ** The spec cache *)

(** The [AstroidImportError] built for a failed spec lookup. *)
Definition failed_import_error (modname : string) (e : PyExc) : PyExc :=
  mkExc AstroidImportError
        (String.append "Failed to import module {modname} with error:"
           (String.append newline "{error}."))
        (Some modname) None None (Some (with_traceback e None)) None None.

(** [raise value] where [value] is the object [self._mod_file_cache[key]]
    holds: the interpreter links the frame of the raise to the object, and
    the entry of the cache is that same object.  (The frames of the callers
    the exception then passes through are not followed.) *)
Definition raise_cached {A} (key : string * option string) (value : PyExc)
  : M W A :=
  let value := add_frame "file_from_module_name" value in
  b ← get_brain;
  set_brain (with_mod_file_cache b
               (<[key := CachedError value]> (_mod_file_cache b)));;
  raise value.

(** [file_from_module_name(self, modname, contextfile)].  The value
    returned is whatever the cache holds under the key. *)
Definition file_from_module_name (modname : string) (contextfile : option string)
  : M W CacheValue :=
  b ← get_brain;
  value ←
    match _mod_file_cache b !! (modname, contextfile) with
    | Some value => ret value
    | None =>
        value ←
          try_catch
            (record (EvSpecLookup modname contextfile);;
             s ← in_world (file_info_from_modpath (split_on "."%char modname)
                                                  contextfile);
             ret (CachedSpec s))
            ImportError
            (fun e => ret (CachedError (failed_import_error modname e)));
        b' ← get_brain;
        set_brain (with_mod_file_cache b'
                     (<[(modname, contextfile) := value]> (_mod_file_cache b')));;
        ret value
    end;
  match value with
  | CachedError e =>
      if isinstance e AstroidBuildingError
      then raise_cached (modname, contextfile) (with_traceback e None)
      else ret value
  | CachedSpec _ => ret value
  end.

(** ** Resolution *)

(** The [for hook in self._failed_import_hooks] loop of the handler of
    [ast_from_module_name], followed by [raise e].  The loop iterates the
    list itself, not a copy: each round takes the entry at the next index
    [i] of the list as it stands then, so that a hook registered by a hook
    is reached, and ends when the index is past the end.  Since the list
    can grow while it is iterated the loop need not end; [budget] bounds
    the number of hooks one handler calls, and a run that needs more ends
    in [RecursionError], as the methods themselves do at depth 0. *)
Fixpoint try_hooks (budget : nat) (i : nat) (modname : string) (e : PyExc)
  : M W AstModule :=
  fun m =>
    match _failed_import_hooks (brain (state m)) !! i with
    | None => raise e m
    | Some hook =>
        match budget with
        | 0 => raise (new_exc RecursionError "maximum recursion depth exceeded") m
        | S budget' =>
            try_catch
              (record (EvHook hook modname);; in_state (call_hook hook modname))
              AstroidBuildingError
              (fun _ => try_hooks budget' (S i) modname e)
              m
        end
    end.

Section Bodies.

(** The three methods call each other; each body takes the methods it calls
    as [self.ast_from_file], [self.ast_from_module] and
    [self.ast_from_module_name]. *)
Variable rec_ast_from_file :
  string -> option string -> bool -> bool -> M W AstModule.
Variable rec_ast_from_module : PyObject -> option string -> M W AstModule.
Variable rec_ast_from_module_name : string -> option string -> M W AstModule.

(** The number of hooks the handler of [ast_from_module_name] may call. *)
Variable hook_budget : nat.

(** The part of [ast_from_file] after the cache test. *)
Definition build_or_fall_back (self : AstroidManager) (filepath modname : string)
    (fallback source : bool) : M W AstModule :=
  if source then in_state (file_build self filepath modname)
  else if fallback && truthy modname then rec_ast_from_module_name modname None
  else raise (mkExc AstroidBuildingError "Unable to build an AST for {path}."
                    None (Some filepath) None None None None).

(** The first two statements of [ast_from_file]: the source form of
    [filepath] with the [source] flag, and the module name, derived from
    the file when none is given. *)
Definition source_form_and_name (filepath : string) (modname : option string)
    (source : bool) : M W (string * bool * string) :=
  '(filepath, source) ←
    try_catch
      (fp ← in_world (get_source_file filepath); ret (fp, true))
      NoSourceFile
      (fun _ => ret (filepath, source));
  modname ←
    match modname with
    | Some modname => ret modname
    | None =>
        try_catch
          (parts ← in_world (modpath_from_file filepath);
           ret (String.concat "." parts))
          ImportError
          (fun _ => ret filepath)
    end;
  ret (filepath, source, modname).

(** [ast_from_file(self, filepath, modname=None, fallback=True, source=False)] *)
Definition ast_from_file_body (self : AstroidManager) (filepath : string)
    (modname : option string) (fallback source : bool) : M W AstModule :=
  '(filepath, source, modname) ← source_form_and_name filepath modname source;
  b ← get_brain;
  match astroid_cache b !! modname with
  | Some cached =>
      if bool_decide (file cached = Some filepath) then ret cached
      else build_or_fall_back self filepath modname fallback source
  | None => build_or_fall_back self filepath modname fallback source
  end.

(** The [if]/[elif] chain on [found_spec.type]: [Some tree] when a branch
    returns, [None] when control falls out of the chain. *)
Definition dispatch_on_type (self : AstroidManager) (modname : string)
    (found_spec : ModuleSpec) : M W (option AstModule) :=
  match type found_spec with
  | PY_ZIPMODULE =>
      zip_import_data self (location found_spec)
  | C_BUILTIN | C_EXTENSION =>
      stub ←
        (if bool_decide (type found_spec = C_EXTENSION)
         then can ← _can_load_extension self modname; ret (negb can)
         else ret false);
      if (stub : bool) then Some <$> _build_stub_module self modname
      else
        module ←
          try_catch
            (in_world (load_module_from_name modname))
            Exception
            (fun e =>
               raise (raise_from
                        (mkExc AstroidImportError
                           (String.append "Loading {modname} failed with:"
                              (String.append newline "{error}"))
                           (Some modname) (location found_spec) None None None None)
                        e));
        Some <$> rec_ast_from_module module (Some modname)
  | PY_COMPILED =>
      raise (mkExc AstroidImportError "Unable to load compiled module {modname}."
                   (Some modname) (location found_spec) None None None None)
  | PY_NAMESPACE =>
      Some <$> _build_namespace_module self modname
                 (submodule_search_locations found_spec)
  | PY_FROZEN =>
      match location found_spec with
      | None => Some <$> _build_stub_module self modname
      | Some loc => Some <$> rec_ast_from_file loc (Some modname) false false
      end
  | _ => ret None
  end.

(** The [try] block of [ast_from_module_name]. *)
Definition resolve_spec (self : AstroidManager) (modname : string)
    (context_file : option string) : M W AstModule :=
  value ← file_from_module_name modname context_file;
  found_spec ←
    match value with
    | CachedSpec found_spec => ret found_spec
    | CachedError _ => raise (new_exc AttributeError "type")
    end;
  returned ← dispatch_on_type self modname found_spec;
  match returned with
  | Some module => ret module
  | None =>
      match location found_spec with
      | None =>
          raise (mkExc AstroidImportError "Can't find a file for module {modname}."
                       (Some modname) None None None None None)
      | Some loc => rec_ast_from_file loc (Some modname) false false
      end
  end.

(** The [try]/[except AstroidBuildingError] of [ast_from_module_name]. *)
Definition resolve_or_hooks (self : AstroidManager) (modname : string)
    (context_file : option string) : M W AstModule :=
  try_catch
    (resolve_spec self modname context_file)
    AstroidBuildingError
    (fun e => try_hooks hook_budget 0 modname e).

(** [ast_from_module_name(self, modname, context_file=None)] *)
Definition ast_from_module_name_body (self : AstroidManager) (modname : string)
    (context_file : option string) : M W AstModule :=
  b ← get_brain;
  match astroid_cache b !! modname with
  | Some cached => ret cached
  | None =>
      if String.eqb modname "__main__" then _build_stub_module self modname
      else if truthy_opt context_file then
        old_cwd ← in_world os_getcwd;
        in_world (os_chdir (os_path_dirname (default "" context_file)));;
        try_finally
          (resolve_or_hooks self modname context_file)
          (in_world (os_chdir old_cwd))
      else
        try_finally (resolve_or_hooks self modname context_file) (ret tt)
  end.

(** [ast_from_module(self, module, modname=None)] *)
Definition ast_from_module_body (self : AstroidManager) (module : PyObject)
    (modname : option string) : M W AstModule :=
  modname ←
    (if truthy_opt modname then ret (default "" modname)
     else eval (__name__ module));
  b ← get_brain;
  match astroid_cache b !! modname with
  | Some cached => ret cached
  | None =>
      from_file ←
        try_catch
          (filepath ← eval (__file__ module);
           if is_python_source filepath
           then Some <$> rec_ast_from_file filepath (Some modname) true false
           else ret None)
          AttributeError
          (fun _ => ret None);
      match from_file with
      | Some tree => ret tree
      | None => in_state (module_build self module modname)
      end
  end.

End Bodies.

(** The three methods, [depth] being the number of nested manager calls the
    interpreter still allows before it raises [RecursionError]; a call at
    depth [n] may call [n] failure hooks. *)
Fixpoint ast_from_file (depth : nat) (self : AstroidManager) (filepath : string)
    (modname : option string) (fallback source : bool) {struct depth}
  : M W AstModule :=
  match depth with
  | 0 => raise (new_exc RecursionError "maximum recursion depth exceeded")
  | S d =>
      ast_from_file_body (ast_from_module_name d self)
                         self filepath modname fallback source
  end
with ast_from_module_name (depth : nat) (self : AstroidManager) (modname : string)
    (context_file : option string) {struct depth} : M W AstModule :=
  match depth with
  | 0 => raise (new_exc RecursionError "maximum recursion depth exceeded")
  | S d =>
      ast_from_module_name_body (ast_from_file d self) (ast_from_module d self)
                                (S d) self modname context_file
  end
with ast_from_module (depth : nat) (self : AstroidManager) (module : PyObject)
    (modname : option string) {struct depth} : M W AstModule :=
  match depth with
  | 0 => raise (new_exc RecursionError "maximum recursion depth exceeded")
  | S d =>
      ast_from_module_body (ast_from_file d self) self module modname
  end.

(** [tree.getattr(name)[0]] *)
Definition first_of (l : list AstModule) : M W AstModule :=
  match l with
  | x :: _ => ret x
  | [] => raise (new_exc IndexError "list index out of range")
  end.

(** [ast_from_class(self, klass, modname=None)] *)
Definition ast_from_class (depth : nat) (self : AstroidManager) (klass : PyObject)
    (modname : option string) : M W AstModule :=
  modname ←
    match modname with
    | Some modname => ret modname
    | None =>
        try_catch
          (eval (__module__ klass))
          AttributeError
          (fun exc =>
             raise (raise_from
                      (mkExc AstroidBuildingError
                         "Unable to get module for class {class_name}."
                         None None (Some (safe_repr klass)) None None None)
                      exc))
    end;
  modastroid ← ast_from_module_name depth self modname None;
  attr ← eval (__name__ klass);
  found ← in_state (module_getattr modastroid attr);
  first_of found.

(** [for inferred in ...: yield inferred.instantiate_class()] *)
Fixpoint instantiate_all (l : list AstModule) : M W (list AstModule) :=
  match l with
  | [] => ret []
  | x :: l' =>
      y ← in_state (instantiate_class x);
      ys ← instantiate_all l';
      ret (y :: ys)
  end.

(** [hasattr(obj, "__class__")] *)
Definition hasattr_class (obj : PyObject) : M W bool :=
  match __class__ obj with
  | Ok _ => ret true
  | Raise e => if isinstance e AttributeError then ret false else raise e
  end.

Definition class_error (cls : ExcClass) (msg : string) (klass : PyObject)
    (exc : PyExc) : PyExc :=
  raise_from (mkExc cls msg None None (Some (safe_repr klass)) None None None) exc.

(** [infer_ast_from_something(self, obj, context=None)]: the values the
    generator yields, or the exception its first step raises. *)
Definition infer_ast_from_something (depth : nat) (self : AstroidManager)
    (obj : PyObject) : M W (list AstModule) :=
  has ← hasattr_class obj;
  let is_instance := (has : bool) && negb (is_type obj) in
  klass ← (if is_instance then eval (__class__ obj) else ret obj);
  modname ←
    try_catch2
      (eval (__module__ klass))
      AttributeError
      (fun exc => raise (class_error AstroidBuildingError
                           "Unable to get module for {class_repr}." klass exc))
      Exception
      (fun exc => raise (class_error AstroidImportError
                           "Unexpected error while retrieving module for {class_repr}:"
                           klass exc));
  name ←
    try_catch2
      (eval (__name__ klass))
      AttributeError
      (fun exc => raise (class_error AstroidBuildingError
                           "Unable to get name for {class_repr}:" klass exc))
      Exception
      (fun exc => raise (class_error AstroidImportError
                           "Unexpected error while retrieving name for {class_repr}:"
                           klass exc));
  modastroid ← ast_from_module_name depth self modname None;
  inferred ← in_state (module_igetattr modastroid name);
  if is_instance then instantiate_all inferred else ret inferred.

(** ** The registry, the cache and the reset *)

(** [register_failed_import_hook(self, hook)] *)
Definition register_failed_import_hook (hook : Hook) : M W unit :=
  b ← get_brain;
  set_brain (with_failed_import_hooks b (_failed_import_hooks b ++ [hook])).

(** [cache_module(self, module)]:
    [self.astroid_cache.setdefault(module.name, module)] *)
Definition cache_module (module : AstModule) : M W unit :=
  b ← get_brain;
  match astroid_cache b !! name module with
  | Some _ => ret tt
  | None =>
      set_brain (with_astroid_cache b (<[name module := module]> (astroid_cache b)))
  end.

(** [bootstrap(self)] *)
Definition bootstrap : M W unit := in_state _astroid_bootstrapping.

(** The loop of [clear_cache] over [BRAIN_MODULES_DIRECTORY.iterdir()];
    an entry is the [stem] and the [suffix] of a path. *)
Fixpoint reload_brain_plugins (entries : list (string * string)) : M W unit :=
  match entries with
  | [] => ret tt
  | (stem, suffix) :: rest =>
      (if String.eqb suffix ".py" then
         module_spec ← in_world (find_spec (String.append "astroid.brain." stem));
         module_object ← in_world (module_from_spec module_spec);
         in_state (exec_module module_spec module_object)
       else ret tt);;
      reload_brain_plugins rest
  end.

(** [TransformVisitor()]: a new object on the heap. *)
Definition new_TransformVisitor : M W Ref :=
  vs ← get_visitors;
  let r := fresh (dom vs) in
  set_visitors (<[r := mkTransformVisitor []]> vs);;
  ret r.

(** [clear_cache(self)] *)
Definition clear_cache (self : AstroidManager) : M W unit :=
  b ← get_brain;
  set_brain (with_astroid_cache b ∅);;
  r ← new_TransformVisitor;
  b ← get_brain;
  set_brain (with_transform b r);;
  bootstrap;;
  entries ← in_world brain_modules_iterdir;
  reload_brain_plugins entries.

End Operations.
End Manager.

(* ===================================================================== *)
(** * Vocabulary of the properties                                        *)
(* ===================================================================== *)

(** Definitions used to state the properties of the two source files, and
    concrete trees, environments and machines on which they are run. *)

Module MixinTerms.
Import Mixin.

(** ** Binding histories

    A scope table "mutated only through its binding operations" is the
    table reached from a new scope by a sequence of the three operations
    below; [bindings] lists, in order, what each operation that went
    through has bound. *)
Inductive BindOp : Type :=
| Op_set_local (name : string) (stmt : NodeNG)
| Op_setitem (name : string) (stmt : NodeNG)
| Op_add_local_node (child_node : NodeNG) (name : option string).

Definition apply_op (self : NodeNG) (op : BindOp) : NodeNG :=
  match op with
  | Op_set_local n s => set_local self n s
  | Op_setitem n s => __setitem__ self n s
  | Op_add_local_node c n => fst (snd (add_local_node self c n))
  end.

Definition apply_ops (self : NodeNG) (ops : list BindOp) : NodeNG :=
  fold_left apply_op ops self.

Definition binding_of (self : NodeNG) (op : BindOp) : list (string * NodeNG) :=
  match op with
  | Op_set_local n s => [(n, s)]
  | Op_setitem n s => [(n, s)]
  | Op_add_local_node c n =>
      match add_local_node self c n, name_or n c with
      | (Ok _, (_, c')), Ok nm => [(nm, c')]
      | _, _ => []
      end
  end.

Fixpoint bindings (self : NodeNG) (ops : list BindOp) : list (string * NodeNG) :=
  match ops with
  | [] => []
  | op :: ops' => binding_of self op ++ bindings (apply_op self op) ops'
  end.

(** The statements a history binds to [n], oldest first. *)
Definition bound_stmts (n : string) (hist : list (string * NodeNG)) : list NodeNG :=
  map snd (List.filter (fun b => String.eqb (fst b) n) hist).

(** The table entry for [n] after the history [stmts] was added to [o]. *)
Definition extend_entry (o : option (list NodeNG)) (stmts : list NodeNG)
  : option (list NodeNG) :=
  match o, stmts with
  | None, [] => None
  | _, _ => Some (default [] o ++ stmts)
  end.

(** [skips_to n m]: going up from [n] through its structural parents, [m]
    is the first scope-defining node that is not a [ClassDef]; every node
    passed before it is a [ClassDef] or defines no scope. *)
Inductive skips_to : NodeNG -> NodeNG -> Prop :=
| skips_here (n m : NodeNG) :
    parent n = Some m -> is_LocalsDictNodeNG m = true -> is_ClassDef m = false ->
    skips_to n m
| skips_class (n c m : NodeNG) :
    parent n = Some c -> is_ClassDef c = true -> skips_to c m ->
    skips_to n m
| skips_plain (n x m : NodeNG) :
    parent n = Some x -> is_LocalsDictNodeNG x = false -> skips_to x m ->
    skips_to n m.

(** [name] is bound in the table of [n] or of a scope enclosing it. *)
Fixpoint bound_in_chain (name : string) (n : NodeNG) : bool :=
  (is_LocalsDictNodeNG n && dict_contains (locals n) name)
  || match parent n with
     | None => false
     | Some p => bound_in_chain name p
     end.

(** A filter that keeps every statement and a built-in scope that binds
    nothing, for running the lookups on concrete trees. *)
Definition demo_builtins : NodeNG :=
  mkNodeNG Module_ (Some "builtins") None [] (Some []).

Definition keep_all : Collaborators :=
  {| _filter_stmts := fun _ stmts _ _ => Ok stmts;
     builtin_lookup := fun _ => Ok (demo_builtins, []) |}.

Definition stmt_named (s : string) (p : option NodeNG) : NodeNG :=
  mkNodeNG OtherNode (Some s) p [] None.

(** [y = 1; class A: x = 2; def f(self): ...] *)
Definition demo_module : NodeNG :=
  mkNodeNG Module_ (Some "demo") None [("y", [stmt_named "y" None])] (Some []).

Definition demo_class : NodeNG :=
  mkNodeNG ClassDef (Some "A") (Some demo_module)
           [("x", [stmt_named "x" None])] (Some []).

Definition demo_function : NodeNG :=
  mkNodeNG FunctionDef (Some "f") (Some demo_class) [] (Some []).

Definition demo_ops : list BindOp :=
  [ Op_set_local "a" demo_class;
    Op_add_local_node (stmt_named "b" None) None;
    Op_setitem "a" demo_module;
    Op_add_local_node demo_class (Some "__class__") ].

End MixinTerms.

Module ManagerTerms.
Import Manager.

Section Terms.
Context {W : Type} `{Env W}.

Implicit Types (m : Machine W) (k : string * option string).

(** Number of spec lookups performed for a key, as the trace shows them. *)
Definition spec_lookups k (tr : list Event) : nat :=
  count_occ Event_eq_dec tr (EvSpecLookup k.1 k.2).

(** The machine after looking the keys [ks] up one after the other. *)
Fixpoint run_lookups (ks : list (string * option string)) m : Machine W :=
  match ks with
  | [] => m
  | k :: ks' => run_lookups ks' (snd (file_from_module_name k.1 k.2 m))
  end.

Definition spec_cache m := _mod_file_cache (brain (state m)).

(** The hook list as a state holds it. *)
Definition hook_list (s : State W) : list Hook := _failed_import_hooks (brain s).

(** [all_fail modname i s called s']: from state [s] the hooks [called]
    are called one after the other, each being the entry at the next
    index, from [i] on, of the hook list as it stands when its turn comes,
    and each raising an [AstroidBuildingError]; this takes the state to
    [s']. *)
Inductive all_fail (modname : string)
  : nat -> State W -> list Hook -> State W -> Prop :=
| all_fail_nil (i : nat) (s : State W) : all_fail modname i s [] s
| all_fail_cons (i : nat) (h : Hook) (called : list Hook) (s s1 s2 : State W)
    (e : PyExc) :
    hook_list s !! i = Some h ->
    call_hook h modname s = (Raise e, s1) ->
    isinstance e AstroidBuildingError = true ->
    all_fail modname (S i) s1 called s2 ->
    all_fail modname i s (h :: called) s2.

(** A hook that changes the hook list changes it by registering hooks. *)
Definition hooks_only_register (modname : string) : Prop :=
  forall h s r s',
    call_hook h modname s = (r, s') ->
    exists added, hook_list s' = hook_list s ++ added.

(** [register_failed_import_hook] called on the hooks [hs], one after the
    other. *)
Fixpoint register_hooks (hs : list Hook) : M W unit :=
  match hs with
  | [] => ret tt
  | h :: hs' => register_failed_import_hook h;; register_hooks hs'
  end.

(** The entry a lookup of a key leaves under it when the key holds [v]: a
    cached failure is raised, and comes back with the frame of the raise
    as its traceback. *)
Definition resettled (v : CacheValue) : CacheValue :=
  match v with
  | CachedSpec _ => v
  | CachedError e =>
      if isinstance e AstroidBuildingError
      then CachedError (add_frame "file_from_module_name" (with_traceback e None))
      else v
  end.

(** The error a failed lookup raises: the cached object with its
    traceback reset and the frame of the raise linked to it. *)
Definition raised_from_cache (err : PyExc) : PyExc :=
  add_frame "file_from_module_name" (with_traceback err None).

Definition hook_events (modname : string) (hs : list Hook) : list Event :=
  map (fun h => EvHook h modname) hs.

(** The machine in which the [try] block of [ast_from_module_name] starts,
    and the cleanup its [finally] clause runs. *)
Definition enters_try (context_file : option string) (m m0 : Machine W)
    (cleanup : M W unit) : Prop :=
  if truthy_opt context_file then
    exists old w1 w2,
      os_getcwd (world (state m)) = (Ok old, w1)
      /\ os_chdir (os_path_dirname (default "" context_file)) w1 = (Ok tt, w2)
      /\ m0 = mkMachine (mkState (brain (state m)) (visitors (state m)) w2) (trace m)
      /\ cleanup = in_world (os_chdir old)
  else m0 = m /\ cleanup = ret tt.

(** Leaving the [try] block with outcome [out] through the [finally]
    clause. *)
Definition leave {A} (cleanup : M W unit) (out : Result A * Machine W)
  : Result A * Machine W :=
  match cleanup (snd out) with
  | (Ok _, m') => (fst out, m')
  | (Raise e, m') => (Raise e, m')
  end.

Definition no_source_error (filepath : string) : PyExc :=
  mkExc AstroidBuildingError "Unable to build an AST for {path}."
        None (Some filepath) None None None None.

End Terms.

(** ** A concrete environment

    A world that counts the spec lookups made in it; the builder caches what
    it builds; the spec resolver, the source finder and the hooks are
    supplied by the instance. *)
Definition build (tree : AstModule) (s : State nat) : Result AstModule * State nat :=
  match astroid_cache (brain s) !! name tree with
  | Some _ => (Ok tree, s)
  | None =>
      (Ok tree,
       mkState (with_astroid_cache (brain s)
                  (<[name tree := tree]> (astroid_cache (brain s))))
               (visitors s) (world s))
  end.

(** The environment over that world; a hook may change the state it is
    called in. *)
Definition stateful_env
    (resolver : list string -> option string -> Result ModuleSpec)
    (source_file : string -> Result string)
    (hook : Hook -> string -> State nat -> Result AstModule * State nat)
  : Env nat :=
  {| get_source_file := fun fp w => (source_file fp, w);
     modpath_from_file := fun fp w => (Ok [fp], w);
     file_info_from_modpath := fun mp cf w => (resolver mp cf, S w);
     is_standard_module := fun _ w => (Ok false, w);
     is_module_name_part_of_extension_package_whitelist := fun _ _ => false;
     is_python_source := fun _ => false;
     load_module_from_name := fun _ w => (Raise (new_exc ImportError "no module"), w);
     os_getcwd := fun w => (Ok "/", w);
     os_chdir := fun _ w => (Ok tt, w);
     os_path_dirname := fun p => p;
     os_path_sep := "/"%char;
     zipimporter := fun _ w => (Raise (new_exc ImportError "not a zip file"), w);
     is_package := fun _ _ w => (Ok false, w);
     get_source := fun _ _ w => (Ok None, w);
     file_build := fun _ fp mn => build (mkAstModule mn (Some fp) 1);
     string_build := fun _ _ mn fp => build (mkAstModule mn fp 2);
     module_build := fun _ _ mn => build (mkAstModule mn None 3);
     build_namespace_package_module := fun mn _ => build (mkAstModule mn None 4);
     call_hook := hook;
     apply_transform := fun _ node s => (Ok node, s);
     module_getattr := fun tree _ s => (Ok [tree], s);
     module_igetattr := fun tree _ s => (Ok [tree], s);
     instantiate_class := fun tree s => (Ok tree, s);
     _astroid_bootstrapping := fun s =>
       (Ok tt, snd (build (mkAstModule "builtins" None 0) s));
     brain_modules_iterdir := fun w => (Ok [], w);
     find_spec := fun n w => (Ok n, w);
     module_from_spec := fun _ w =>
       (Raise (new_exc ImportError "no loader"), w);
     exec_module := fun _ _ s => (Ok tt, s) |}.

(** The environment whose hooks leave the state alone. *)
Definition demo_env
    (resolver : list string -> option string -> Result ModuleSpec)
    (source_file : string -> Result string)
    (hook : Hook -> string -> Result AstModule) : Env nat :=
  stateful_env resolver source_file (fun h mn s => (hook h mn, s)).

Definition empty_brain : Brain :=
  mkBrain ∅ ∅ [] false false ∅ 0.

Definition start : Machine nat :=
  mkMachine (mkState empty_brain {[ 0 := mkTransformVisitor [] ]} 0) [].

Definition a_manager : AstroidManager := mkAstroidManager false false 0.

Definition no_module : list string -> option string -> Result ModuleSpec :=
  fun _ _ => Raise (new_exc ImportError "No module named").

Definition no_source : string -> Result string :=
  fun _ => Raise (new_exc NoSourceFile "no source").

(** Two hooks: the first cannot help, the second resolves every name. *)
Definition helpful_tree : AstModule := mkAstModule "resolved by hook" None 9.

Definition two_hooks (h : Hook) (modname : string) : Result AstModule :=
  match h with
  | 1 => Raise (new_exc AstroidBuildingError "cannot help")
  | _ => Ok helpful_tree
  end.

Definition with_hooks (m : Machine nat) (hs : list Hook) : Machine nat :=
  mkMachine (mkState (with_failed_import_hooks (brain (state m)) hs)
                     (visitors (state m)) (world (state m)))
            (trace m).

(** A hook that raises something else than an [AstroidBuildingError]. *)
Definition faulty_hook (h : Hook) (modname : string) : Result AstModule :=
  Raise (new_exc ValueError "hook broke").

(** A tree cached for [mod] from one directory, and a compiled file of the
    same name in another directory. *)
Definition stale_tree : AstModule := mkAstModule "mod" (Some "a/mod.py") 5.

Definition with_cached (m : Machine nat) (tree : AstModule) : Machine nat :=
  mkMachine (mkState (with_astroid_cache (brain (state m))
                        (<[name tree := tree]> (astroid_cache (brain (state m)))))
                     (visitors (state m)) (world (state m)))
            (trace m).

Definition plain_env : Env nat := demo_env no_module no_source two_hooks.

(** The class [type]; the object graph stops here, so its own class is
    left out. *)
Definition type_object : PyObject :=
  mkPyObject true (Raise (new_exc AttributeError "__class__"))
             (Ok "builtins") (Ok "type")
             (Raise (new_exc AttributeError "__file__")) (Ok "<class 'type'>").

(** A class-like object of module [mod] that exposes no [__name__]. *)
Definition nameless : PyObject :=
  mkPyObject true (Ok type_object)
             (Ok "mod") (Raise (new_exc AttributeError "__name__"))
             (Raise (new_exc AttributeError "__file__")) (Ok "<nameless>").

(** The environment whose only hook is faulty, and the environment whose
    spec resolver is denied access to the file system. *)
Definition faulty_env : Env nat := demo_env no_module no_source faulty_hook.

Definition denied_env : Env nat :=
  demo_env (fun _ _ => Raise (new_exc OSError "permission denied"))
           no_source two_hooks.

(** A hook that cannot help itself but registers hook 2, which resolves
    every name; and the environment with these hooks. *)
Definition registering_hook (h : Hook) (modname : string) (s : State nat)
  : Result AstModule * State nat :=
  match h with
  | 1 => (Raise (new_exc AstroidBuildingError "ask hook 2"),
          state (snd (@register_failed_import_hook nat 2 (mkMachine s []))))
  | _ => (Ok helpful_tree, s)
  end.

Definition registering_env : Env nat :=
  stateful_env no_module no_source registering_hook.

(** An [ImportError] as it reaches the [except] clause, with the frames of
    the resolver that raised it, and the environment whose resolver raises
    it. *)
Definition traced_import_error : PyExc :=
  with_traceback (new_exc ImportError "No module named")
                 (Some ["find_spec"; "file_info_from_modpath"]).

Definition traced_env : Env nat :=
  demo_env (fun _ _ => Raise traced_import_error) no_source two_hooks.

(** The outcome of a first lookup of [pkg] from the start, and the machine
    it leaves. *)
Definition first_lookup (env : Env nat) : Result CacheValue * Machine nat :=
  @file_from_module_name nat env "pkg" None start.

End ManagerTerms.

(** ** Further vocabulary *)

Module MoreMixinTerms.
Import Mixin MixinTerms.

(** Adding a name to a list of names kept in order of first registration. *)
Definition register_name (names : list string) (k : string) : list string :=
  if existsb (String.eqb k) names then names else names ++ [k].

(** The names of a history, each once, in the order in which they were
    first bound. *)
Definition registration_order (hist : list (string * NodeNG)) : list string :=
  fold_left register_name (map fst hist) [].

(** A filter that fails with a [KeyError] of its own on every call. *)
Definition key_error_filter : Collaborators :=
  {| _filter_stmts := fun _ _ _ _ => Raise (new_exc KeyError "inside the filter");
     builtin_lookup := fun _ => Ok (demo_builtins, []) |}.

(** A filter that keeps the statements only when the offset is zero. *)
Definition zero_offset_filter : Collaborators :=
  {| _filter_stmts := fun _ stmts _ offset =>
                        if Z.eqb offset 0 then Ok stmts else Ok [];
     builtin_lookup := fun _ => Ok (demo_builtins, []) |}.

(** A lambda, whose [body] is no list, and a statement without a name. *)
Definition demo_lambda : NodeNG :=
  mkNodeNG Lambda None (Some demo_module) [] None.

Definition anonymous_stmt : NodeNG :=
  mkNodeNG OtherNode None None [] None.

(** A scope whose table holds a name bound to no statement. *)
Definition hollow_scope : NodeNG :=
  mkNodeNG Module_ (Some "hollow") None
           [("a", [stmt_named "a" None]); ("b", [])] (Some []).

End MoreMixinTerms.

Module MoreManagerTerms.
Import Manager ManagerTerms.

Section Terms.
Context {W : Type}.

(** The parts of the brain that outlive a reset: the spec cache and the
    registered failure hooks. *)
Definition registry_of (s : State W)
  : gmap (string * option string) CacheValue * list Hook :=
  (_mod_file_cache (brain s), _failed_import_hooks (brain s)).

(** A collaborator that leaves the spec cache and the hook list alone. *)
Definition keeps_registry {A} (f : State W -> Result A * State W) : Prop :=
  forall s, registry_of (snd (f s)) = registry_of s.

(** The same for a computation of the manager. *)
Definition quiet {A} (c : M W A) : Prop :=
  forall m, registry_of (state (snd (c m))) = registry_of (state m).

(** How [infer_ast_from_something] reports a failed attribute access [e]
    on [klass]. *)
Definition reports (klass : PyObject) (e err : PyExc) : Prop :=
  exc_class err = (if isinstance e AttributeError then AstroidBuildingError
                   else AstroidImportError)
  /\ exc_cause err = Some e
  /\ exc_class_repr err = Some (safe_repr klass).

(** [suffix == ".py"] on a directory entry. *)
Definition is_plugin (entry : string * string) : bool :=
  String.eqb (snd entry) ".py".

End Terms.

(** The errors [ast_from_module_name] builds for specs it cannot load. *)
Definition compiled_module_error (modname : string) (path : option string) : PyExc :=
  mkExc AstroidImportError "Unable to load compiled module {modname}."
        (Some modname) path None None None None.

Definition no_file_error (modname : string) : PyExc :=
  mkExc AstroidImportError "Can't find a file for module {modname}."
        (Some modname) None None None None None.

(** Resolvers that classify every name as a compiled file, as a built-in,
    as a source file. *)
Definition compiled_env : Env nat :=
  demo_env (fun _ _ => Ok (mkModuleSpec PY_COMPILED (Some "pkg/mod.pyc") None))
           no_source two_hooks.

Definition builtin_env : Env nat :=
  demo_env (fun _ _ => Ok (mkModuleSpec C_BUILTIN None None))
           no_source two_hooks.

Definition source_env : Env nat :=
  demo_env (fun _ _ => Ok (mkModuleSpec PY_SOURCE (Some "pkg/mod.py") None))
           (fun fp => Ok fp) two_hooks.

(** A resolver that classifies every name as a C extension. *)
Definition extension_env : Env nat :=
  demo_env (fun _ _ => Ok (mkModuleSpec C_EXTENSION (Some "pkg/ext.so") None))
           no_source two_hooks.

End MoreManagerTerms.

(* ===================================================================== *)
(** * Properties of the scoped-node mixin                                 *)
(* ===================================================================== *)

Module MixinFacts.
Import Mixin MixinTerms.

(** ** Dictionaries *)

Lemma dict_get_set_eq {V} (d : dict V) (k : string) (v : V) :
  dict_get (dict_set d k v) k = Some v.
Proof.
  induction d as [|[k' v'] d IH]; simpl.
  - now rewrite String.eqb_refl.
  - destruct (String.eqb k k') eqn:E; simpl; rewrite E; auto.
Qed.

Lemma dict_get_set_ne {V} (d : dict V) (k k' : string) (v : V) :
  k <> k' -> dict_get (dict_set d k v) k' = dict_get d k'.
Proof.
  intros Hne. induction d as [|[k0 v0] d IH]; simpl.
  - destruct (String.eqb_spec k' k); congruence.
  - destruct (String.eqb_spec k k0) as [->|Hk]; simpl.
    + destruct (String.eqb_spec k' k0); congruence.
    + destruct (String.eqb_spec k' k0); auto.
Qed.

Lemma dict_get_keys {V} (d : dict V) (k : string) :
  In k (dict_keys d) <-> dict_get d k <> None.
Proof.
  induction d as [|[k0 v0] d IH]; simpl.
  - split; [tauto | congruence].
  - destruct (String.eqb_spec k k0) as [->|Hk].
    + split; [congruence | auto].
    + rewrite <- IH. split; [intros [?|?]; congruence || auto | auto].
Qed.

(** What [set_local] does to every entry of the table. *)
Lemma set_local_get (self : NodeNG) (x : string) (s : NodeNG) (n : string) :
  dict_get (locals (set_local self x s)) n =
  if String.eqb n x
  then Some (default [] (dict_get (locals self) x) ++ [s])
  else dict_get (locals self) n.
Proof.
  unfold set_local, dict_setdefault.
  destruct (dict_get (locals self) x) as [l|] eqn:E; simpl.
  - destruct (String.eqb_spec n x) as [->|Hn].
    + apply dict_get_set_eq.
    + apply dict_get_set_ne. congruence.
  - destruct (String.eqb_spec n x) as [->|Hn].
    + apply dict_get_set_eq.
    + rewrite !dict_get_set_ne by congruence. reflexivity.
Qed.

Lemma name_or_with_parent (n : option string) (c : NodeNG) (p : option NodeNG) :
  name_or n (with_parent c p) = name_or n c.
Proof. destruct n as [s|]; reflexivity. Qed.

Lemma apply_op_get (self : NodeNG) (op : BindOp) (n : string) :
  dict_get (locals (apply_op self op)) n =
  extend_entry (dict_get (locals self) n) (bound_stmts n (binding_of self op)).
Proof.
  assert (Hset : forall x s,
    dict_get (locals (set_local self x s)) n =
    extend_entry (dict_get (locals self) n) (bound_stmts n [(x, s)])).
  { intros x s. rewrite set_local_get. unfold bound_stmts. simpl.
    rewrite (String.eqb_sym x n).
    destruct (String.eqb_spec n x) as [->|Hn]; simpl.
    - destruct (dict_get (locals self) x); reflexivity.
    - destruct (dict_get (locals self) n); simpl; rewrite ?app_nil_r; reflexivity. }
  assert (Hnone : dict_get (locals self) n =
                  extend_entry (dict_get (locals self) n) (bound_stmts n [])).
  { unfold bound_stmts. simpl.
    destruct (dict_get (locals self) n); simpl; rewrite ?app_nil_r; reflexivity. }
  destruct op as [x s|x s|c nm]; simpl; try apply Hset.
  unfold add_local_node.
  destruct (bool_decide (nm = Some "__class__")).
  - destruct (name_or nm c) as [k|e]; simpl; [|exact Hnone].
    rewrite set_local_get. unfold bound_stmts; simpl.
    rewrite (String.eqb_sym k n).
    destruct (String.eqb_spec n k) as [->|Hn]; simpl.
    + destruct (dict_get (locals self) k); reflexivity.
    + destruct (dict_get (locals self) n); simpl; rewrite ?app_nil_r; reflexivity.
  - unfold _append_node. destruct (body self) as [b|]; simpl.
    + rewrite name_or_with_parent.
      destruct (name_or nm c) as [k|e]; simpl; [|exact Hnone].
      rewrite set_local_get. unfold bound_stmts; simpl.
      rewrite (String.eqb_sym k n).
      destruct (String.eqb_spec n k) as [->|Hn]; simpl.
      * destruct (dict_get (locals self) k); reflexivity.
      * destruct (dict_get (locals self) n); simpl; rewrite ?app_nil_r; reflexivity.
    + destruct (name_or nm c); exact Hnone.
Qed.

Lemma bound_stmts_app (n : string) (h1 h2 : list (string * NodeNG)) :
  bound_stmts n (h1 ++ h2) = bound_stmts n h1 ++ bound_stmts n h2.
Proof. unfold bound_stmts. now rewrite List.filter_app, List.map_app. Qed.

Lemma extend_entry_twice (o : option (list NodeNG)) (l1 l2 : list NodeNG) :
  extend_entry (extend_entry o l1) l2 = extend_entry o (l1 ++ l2).
Proof.
  destruct o as [l|], l1 as [|a l1], l2 as [|b l2]; simpl;
    rewrite ?app_nil_r, <- ?app_assoc; reflexivity.
Qed.

(** The table after a run is the table before it, extended entry by entry
    with what the run has bound. *)
Lemma apply_ops_get (ops : list BindOp) : forall (self : NodeNG) (n : string),
  dict_get (locals (apply_ops self ops)) n =
  extend_entry (dict_get (locals self) n) (bound_stmts n (bindings self ops)).
Proof.
  induction ops as [|op ops IH]; intros self n; simpl.
  - unfold bound_stmts; simpl.
    destruct (dict_get (locals self) n); simpl; rewrite ?app_nil_r; reflexivity.
  - unfold apply_ops in *. simpl. rewrite IH, apply_op_get, bound_stmts_app.
    apply extend_entry_twice.
Qed.

(** C6 — Binding appends and never replaces.  For every scope [self], name
    [x] and statement [s], [set_local] leaves under [x] the list that was
    there (the empty list if [x] was unbound) followed by [s], and leaves
    every other name as it was; so binding [s1] and then [s2] to a name
    that was unbound leaves the raw entry [self.locals[x]] equal to
    [[s1; s2]], in that order. *)
Theorem set_local_appends (self : NodeNG) (x : string) (s1 s2 : NodeNG) :
  dict_get (locals (set_local self x s1)) x
    = Some (default [] (dict_get (locals self) x) ++ [s1])
  /\ (forall y, y <> x ->
        dict_get (locals (set_local self x s1)) y = dict_get (locals self) y)
  /\ (dict_get (locals self) x = None ->
        dict_getitem (locals (set_local (set_local self x s1) x s2)) x
          = Ok [s1; s2]).
Proof.
  split; [|split].
  - rewrite set_local_get, String.eqb_refl. reflexivity.
  - intros y Hy. rewrite set_local_get.
    destruct (String.eqb_spec y x); congruence.
  - intros Hx. unfold dict_getitem.
    rewrite !set_local_get, String.eqb_refl, Hx. reflexivity.
Qed.

(** C10 — Tables built by the binding operations are indexable.  Starting
    from a new scope (empty table) and applying any sequence of
    [set_local], [__setitem__] and [add_local_node]: every name in the
    table maps to a non-empty list; [__getitem__] on every name of
    [keys()] succeeds with the first statement bound to it; and
    [__getitem__] raises [KeyError] exactly for the names that no
    operation has bound. *)
Theorem bound_tables_indexable (self : NodeNG) (ops : list BindOp) :
  locals self = [] ->
  (forall n l, dict_get (locals (apply_ops self ops)) n = Some l -> l <> [])
  /\ (forall n, In n (keys (apply_ops self ops)) ->
        exists s, __getitem__ (apply_ops self ops) n = Ok s
                  /\ head (bound_stmts n (bindings self ops)) = Some s)
  /\ (forall n, (exists e, __getitem__ (apply_ops self ops) n = Raise e
                           /\ isinstance e KeyError = true)
                <-> bound_stmts n (bindings self ops) = []).
Proof.
  intros Hnew.
  assert (Hget : forall n, dict_get (locals (apply_ops self ops)) n =
                           extend_entry None (bound_stmts n (bindings self ops))).
  { intros n. rewrite apply_ops_get, Hnew. reflexivity. }
  split; [|split].
  - intros n l. rewrite Hget.
    destruct (bound_stmts n (bindings self ops)); simpl; congruence.
  - intros n Hin. apply dict_get_keys in Hin. unfold __getitem__, dict_getitem.
    rewrite Hget in *.
    destruct (bound_stmts n (bindings self ops)) as [|s l]; simpl in *.
    + congruence.
    + exists s. split; reflexivity.
  - intros n. unfold __getitem__, dict_getitem. rewrite Hget.
    destruct (bound_stmts n (bindings self ops)) as [|s l]; simpl.
    + split; [reflexivity|]. intros _. eexists. split; reflexivity.
    + split; [|discriminate]. intros (e & He & _). discriminate.
Qed.

(** ** The upward walk *)

Ltac rew_inspect :=
  repeat match goal with
  | E : sigmaI _ _ _ = sigmaI _ _ _ |- _ => clear E
  end;
  repeat match goal with
  | E : is_ClassDef _ = _ |- _ => rewrite E; clear E
  | E : parent_scope _ = _ |- _ => rewrite E; clear E
  | E : enclosing_non_class _ = _ |- _ => rewrite E; clear E
  | E : own_stmts _ _ _ _ = _ |- _ => rewrite E; clear E
  end.

Lemma NodeNG_parent_ind (P : NodeNG -> Prop) :
  (forall n, parent n = None -> P n) ->
  (forall n p, parent n = Some p -> P p -> P n) ->
  forall n, P n.
Proof.
  intros H0 HS. fix IH 1. intros [k nm [p|] l b].
  - apply (HS _ p); [reflexivity | apply IH].
  - apply H0. reflexivity.
Qed.

Lemma NodeNG_height_ind (P : NodeNG -> Prop) :
  (forall n, (forall m, height m < height n -> P m) -> P n) ->
  forall n, P n.
Proof.
  intros Hstep n. remember (height n) as h eqn:Hh. revert n Hh.
  induction h as [h IH] using lt_wf_ind. intros n ->.
  apply Hstep. intros m Hm. exact (IH _ Hm m eq_refl).
Qed.

Lemma height_parent (n p : NodeNG) : parent n = Some p -> height n = S (height p).
Proof. destruct n as [k nm [q|] l b]; simpl; [intros [= ->]; reflexivity | discriminate]. Qed.

Lemma root_parent (n p : NodeNG) : parent n = Some p -> root n = root p.
Proof. destruct n as [k nm [q|] l b]; simpl; [intros [= ->]; reflexivity | discriminate]. Qed.

Lemma scope_unfold (n : NodeNG) :
  scope n = if is_LocalsDictNodeNG n then Ok n
            else match parent n with
                 | None => Raise (new_exc ParentMissingError "No parent for node")
                 | Some p => scope p
                 end.
Proof. destruct n; reflexivity. Qed.

Lemma is_ClassDef_scope (n : NodeNG) : is_ClassDef n = true -> is_LocalsDictNodeNG n = true.
Proof. unfold is_ClassDef, is_LocalsDictNodeNG. destruct (kind n); congruence. Qed.

Lemma enclosing_non_class_Some (p : NodeNG) :
  enclosing_non_class (Some p) =
  if is_ClassDef p then
    match parent_scope p with
    | Ok ps => enclosing_non_class ps
    | Raise e => Raise e
    end
  else Ok (Some p).
Proof.
  funelim (enclosing_non_class (Some p)); rew_inspect; reflexivity.
Qed.

Section Lookup.
Context `{Collaborators}.

Lemma _scope_lookup_unfold (self node : NodeNG) (name : string) (offset : Z) :
  _scope_lookup self node name offset =
  match own_stmts self node name offset with
  | Raise e => Raise e
  | Ok (s :: ss) => Ok (self, s :: ss)
  | Ok [] =>
      match parent_scope self with
      | Raise e => Raise e
      | Ok pscope =>
          match enclosing_non_class pscope with
          | Raise e => Raise e
          | Ok None => builtin_lookup name
          | Ok (Some p) => scope_lookup p node name
          end
      end
  end.
Proof.
  funelim (_scope_lookup self node name offset); rew_inspect; reflexivity.
Qed.

Lemma skips_to_walk (n m : NodeNG) :
  skips_to n m ->
  exists q, parent_scope n = Ok (Some q) /\ enclosing_non_class (Some q) = Ok (Some m).
Proof.
  induction 1 as [n m Hp Hs Hc | n c m Hp Hc _ IH | n x m Hp Hx _ IH].
  - exists m. unfold parent_scope. rewrite Hp, scope_unfold, Hs.
    split; [reflexivity|]. rewrite enclosing_non_class_Some, Hc. reflexivity.
  - destruct IH as (q & Hq & Hw). exists c. unfold parent_scope at 1.
    rewrite Hp, scope_unfold, (is_ClassDef_scope _ Hc).
    split; [reflexivity|]. rewrite enclosing_non_class_Some, Hc, Hq. exact Hw.
  - destruct IH as (q & Hq & Hw). exists q. split; [|exact Hw].
    unfold parent_scope in *. rewrite Hp, scope_unfold, Hx.
    destruct (parent x) as [y|]; [exact Hq | discriminate].
Qed.

(** C1 — Class scopes are skipped by the upward walk.  Let [f] be a scope
    in which [name] is not visible and let [m] be the first enclosing
    scope of [f] that is not a class, whatever class scopes lie between
    them and whatever these bind.  Then the lookup from [f] is the lookup
    delegated to [m]: a name bound in [m] and kept by the statement filter
    is found in [m]; and when [m] is the module top level and does not
    bind [name], the lookup falls through to the built-in scope, so a name
    bound only in the class bodies in between is not visible from [f]. *)
Theorem class_scopes_skipped (f m node : NodeNG) (name : string) (offset : Z) :
  skips_to f m ->
  own_stmts f node name offset = Ok [] ->
  _scope_lookup f node name offset = scope_lookup m node name
  /\ (forall l s ss,
        dict_get (locals m) name = Some l ->
        _filter_stmts node l m 0 = Ok (s :: ss) ->
        _scope_lookup f node name offset = Ok (m, s :: ss))
  /\ (dict_get (locals m) name = None -> parent m = None ->
        _scope_lookup f node name offset = builtin_lookup name).
Proof.
  intros Hskip Hown.
  assert (Hdel : _scope_lookup f node name offset = scope_lookup m node name).
  { destruct (skips_to_walk _ _ Hskip) as (q & Hq & Hw).
    rewrite _scope_lookup_unfold, Hown, Hq, Hw. reflexivity. }
  split; [exact Hdel|]. rewrite Hdel. unfold scope_lookup. split.
  - intros l s ss Hl Hf. rewrite _scope_lookup_unfold. unfold own_stmts, dict_getitem.
    rewrite Hl, Hf. reflexivity.
  - intros Hl Hp. rewrite _scope_lookup_unfold. unfold own_stmts, dict_getitem.
    rewrite Hl. simpl. unfold parent_scope. rewrite Hp.
    simp enclosing_non_class. reflexivity.
Qed.

Lemma bound_in_chain_unfold (name : string) (n : NodeNG) :
  bound_in_chain name n =
  (is_LocalsDictNodeNG n && dict_contains (locals n) name)
  || match parent n with
     | None => false
     | Some p => bound_in_chain name p
     end.
Proof. destruct n; reflexivity. Qed.

Lemma scope_rooted (name : string) (n : NodeNG) :
  is_LocalsDictNodeNG (root n) = true ->
  exists q, scope n = Ok q /\ is_LocalsDictNodeNG q = true /\ root q = root n
            /\ height q <= height n
            /\ (bound_in_chain name n = false -> bound_in_chain name q = false).
Proof.
  induction n as [n Hp | n p Hp IH] using NodeNG_parent_ind; intros Hroot;
    rewrite scope_unfold.
  - assert (Hn : root n = n) by (destruct n as [k nm [q|] l b]; [discriminate|reflexivity]).
    rewrite Hn in Hroot. rewrite Hroot. exists n. auto.
  - destruct (is_LocalsDictNodeNG n) eqn:Hs.
    + exists n. auto.
    + rewrite Hp. rewrite (root_parent _ _ Hp) in *.
      destruct (IH Hroot) as (q & Hq & Hqs & Hqr & Hqh & Hqb).
      exists q. rewrite (height_parent _ _ Hp). repeat split; auto.
      intros Hb. apply Hqb. rewrite bound_in_chain_unfold, Hp, Hs in Hb. exact Hb.
Qed.

Lemma walk_unbound (name : string) (q : NodeNG) :
  is_LocalsDictNodeNG q = true ->
  is_LocalsDictNodeNG (root q) = true ->
  bound_in_chain name q = false ->
  enclosing_non_class (Some q) = Ok None
  \/ exists m, enclosing_non_class (Some q) = Ok (Some m)
               /\ is_LocalsDictNodeNG m = true
               /\ is_LocalsDictNodeNG (root m) = true
               /\ bound_in_chain name m = false
               /\ height m <= height q.
Proof.
  induction q as [q IH] using NodeNG_height_ind. intros Hs Hroot Hb.
  rewrite enclosing_non_class_Some. destruct (is_ClassDef q) eqn:Hc.
  - unfold parent_scope. destruct (parent q) as [p|] eqn:Hp.
    + rewrite (root_parent _ _ Hp) in Hroot.
      destruct (scope_rooted name p Hroot) as (q' & Hq' & Hs' & Hr' & Hh' & Hb').
      rewrite Hq'. rewrite bound_in_chain_unfold, Hp in Hb.
      apply orb_false_iff in Hb as [_ Hb].
      pose proof (height_parent _ _ Hp) as Hh.
      destruct (IH q') as [Hnone | (m & Hm & ?)]; auto; try lia.
      * now rewrite Hr'.
      * right. exists m. intuition lia.
    + left. simp enclosing_non_class. reflexivity.
  - right. exists q. auto.
Qed.

(** C7 — Unbound names fall back to the built-in scope.  For every scope
    [self] of a tree whose topmost node defines a scope, if [name] is in
    the table of no scope on the chain from [self] upwards, the walk
    exhausts the chain and [_scope_lookup] returns what
    [builtin_lookup(name)] returns. *)
Theorem unbound_name_falls_back_to_builtins
    (self node : NodeNG) (name : string) (offset : Z) :
  is_LocalsDictNodeNG self = true ->
  is_LocalsDictNodeNG (root self) = true ->
  bound_in_chain name self = false ->
  _scope_lookup self node name offset = builtin_lookup name.
Proof.
  revert offset.
  induction self as [self IH] using NodeNG_height_ind. intros offset Hs Hroot Hb.
  rewrite _scope_lookup_unfold.
  pose proof Hb as Hb'. rewrite bound_in_chain_unfold, Hs in Hb'.
  apply orb_false_iff in Hb' as [Hown Hup]. simpl in Hown.
  assert (Hstmts : own_stmts self node name offset = Ok []).
  { unfold own_stmts, dict_getitem. unfold dict_contains in Hown.
    destruct (dict_get (locals self) name); [discriminate | reflexivity]. }
  rewrite Hstmts. unfold parent_scope.
  destruct (parent self) as [p|] eqn:Hp.
  - rewrite (root_parent _ _ Hp) in Hroot.
    destruct (scope_rooted name p Hroot) as (q & Hq & Hqs & Hqr & Hqh & Hqb).
    rewrite Hq. pose proof (height_parent _ _ Hp) as Hh.
    destruct (walk_unbound name q) as [Hnone | (m & Hm & Hms & Hmr & Hmb & Hmh)]; auto.
    + now rewrite Hqr.
    + rewrite Hnone. reflexivity.
    + rewrite Hm. unfold scope_lookup. apply IH; auto. lia.
  - simp enclosing_non_class. reflexivity.
Qed.

End Lookup.

(** ** Worked instances *)

Lemma demo_skips : skips_to demo_function demo_module.
Proof.
  apply skips_class with (c := demo_class); [reflexivity | reflexivity |].
  apply skips_here; reflexivity.
Qed.

Example demo_class_name_invisible :
  @_scope_lookup keep_all demo_function demo_function "x" 0
  = Ok (demo_builtins, []).
Proof. reflexivity. Qed.

Example demo_module_name_visible :
  @_scope_lookup keep_all demo_function demo_function "y" 0
  = Ok (demo_module, [stmt_named "y" None]).
Proof. reflexivity. Qed.

Lemma class_scopes_skipped_witness :
  @_scope_lookup keep_all demo_function demo_function "y" 0
    = Ok (demo_module, [stmt_named "y" None])
  /\ @_scope_lookup keep_all demo_function demo_function "x" 0
    = @builtin_lookup keep_all "x".
Proof.
  split.
  - apply (proj1 (proj2 (@class_scopes_skipped keep_all demo_function demo_module
             demo_function "y" 0 demo_skips eq_refl))
             [stmt_named "y" None] (stmt_named "y" None) []); reflexivity.
  - apply (proj2 (proj2 (@class_scopes_skipped keep_all demo_function demo_module
             demo_function "x" 0 demo_skips eq_refl))); reflexivity.
Defined.

Lemma unbound_name_falls_back_to_builtins_witness :
  @_scope_lookup keep_all demo_function demo_function "z" 0
  = @builtin_lookup keep_all "z".
Proof.
  apply (@unbound_name_falls_back_to_builtins keep_all); reflexivity.
Defined.

Lemma set_local_appends_witness :
  dict_getitem
    (locals (set_local (set_local demo_function "x" demo_class) "x" demo_module)) "x"
  = Ok [demo_class; demo_module].
Proof.
  apply (proj2 (proj2 (set_local_appends demo_function "x" demo_class demo_module))).
  reflexivity.
Defined.

Lemma bound_tables_indexable_witness :
  exists s, __getitem__ (apply_ops demo_function demo_ops) "a" = Ok s
            /\ head (bound_stmts "a" (bindings demo_function demo_ops)) = Some s.
Proof.
  apply (proj1 (proj2 (bound_tables_indexable demo_function demo_ops eq_refl))).
  vm_compute. auto.
Defined.

End MixinFacts.

(* ===================================================================== *)
(** * Properties of the manager                                           *)
(* ===================================================================== *)

Module ManagerFacts.
Import Manager ManagerTerms.

Ltac msimpl :=
  unfold mbind, M_bind, mret, M_ret, fmap, M_fmap, bind, ret, raise, eval,
         get_brain, set_brain, get_visitors, set_visitors, in_world, in_state,
         record, try_catch, try_catch2, try_finally in *;
  simpl in *.

Lemma isinstance_Exception (e : PyExc) : isinstance e Exception = true.
Proof. unfold isinstance. destruct (exc_class e); reflexivity. Qed.

Section SpecCache.
Context {W : Type} `{Env W}.

Implicit Types (m : Machine W) (k : string * option string).

Lemma spec_lookups_snoc k (tr : list Event) (ev : Event) :
  spec_lookups k (tr ++ [ev]) =
  spec_lookups k tr + (if bool_decide (ev = EvSpecLookup k.1 k.2) then 1 else 0).
Proof.
  unfold spec_lookups. rewrite count_occ_app. f_equal.
  case_bool_decide as Hev.
  - now rewrite count_occ_cons_eq.
  - now rewrite count_occ_cons_neq.
Qed.

Lemma raised_from_cache_idem (err : PyExc) :
  raised_from_cache (raised_from_cache err) = raised_from_cache err.
Proof. reflexivity. Qed.

Lemma isinstance_raised_from_cache (err : PyExc) (c : ExcClass) :
  isinstance (raised_from_cache err) c = isinstance err c.
Proof. reflexivity. Qed.

(** A cached failure is raised again with its traceback reset, and the
    entry of the cache is the object raised. *)
Lemma lookup_cached_error modname contextfile m err :
  spec_cache m !! (modname, contextfile) = Some (CachedError err) ->
  isinstance err AstroidBuildingError = true ->
  file_from_module_name modname contextfile m
  = (Raise (raised_from_cache err),
     mkMachine
       (mkState
          (with_mod_file_cache (brain (state m))
             (<[(modname, contextfile) := CachedError (raised_from_cache err)]>
                (_mod_file_cache (brain (state m)))))
          (visitors (state m)) (world (state m)))
       (trace m)).
Proof.
  intros Hc Hi. unfold file_from_module_name, raise_cached, spec_cache in *.
  msimpl. rewrite Hc. simpl. rewrite Hi. reflexivity.
Qed.

(** The entry a lookup leaves under a key that holds [v]. *)
Lemma lookup_cached_machine modname contextfile m v :
  spec_cache m !! (modname, contextfile) = Some v ->
  resettled v = v ->
  snd (file_from_module_name modname contextfile m) = m.
Proof.
  intros Hc Hv. destruct v as [sp|err].
  - unfold file_from_module_name, spec_cache in *; msimpl. rewrite Hc.
    reflexivity.
  - unfold resettled in Hv.
    destruct (isinstance err AstroidBuildingError) eqn:Hi.
    + rewrite (lookup_cached_error _ _ _ _ Hc Hi). simpl.
      injection Hv as Hv. unfold raised_from_cache. rewrite Hv.
      unfold spec_cache in Hc. rewrite (insert_id _ _ _ Hc).
      destruct m as [[b vs w] tr]. destruct b. reflexivity.
    + unfold file_from_module_name, spec_cache in *; msimpl. rewrite Hc.
      simpl. rewrite Hi. reflexivity.
Qed.

(** What a lookup that misses the cache leaves behind. *)
Lemma lookup_miss_machine modname contextfile m :
  spec_cache m !! (modname, contextfile) = None ->
  let m' := snd (file_from_module_name modname contextfile m) in
  trace m' = trace m ++ [EvSpecLookup modname contextfile]
  /\ forall k, k <> (modname, contextfile) -> spec_cache m' !! k = spec_cache m !! k.
Proof.
  intros Hc. unfold file_from_module_name, raise_cached, spec_cache in *. msimpl.
  rewrite Hc. simpl.
  destruct (file_info_from_modpath _ _ _) as [[s|e] w]; simpl.
  - split; [reflexivity|]. intros k Hk. now rewrite lookup_insert_ne.
  - destruct (isinstance e ImportError); simpl.
    + split; [reflexivity|].
      intros k Hk. rewrite lookup_insert_ne by congruence.
      now rewrite lookup_insert_ne.
    + split; [reflexivity|]. reflexivity.
Qed.

Lemma lookup_keeps_entry k k' m v :
  spec_cache m !! k = Some v ->
  resettled v = v ->
  spec_cache (snd (file_from_module_name k'.1 k'.2 m)) !! k = Some v
  /\ spec_lookups k (trace (snd (file_from_module_name k'.1 k'.2 m)))
     = spec_lookups k (trace m).
Proof.
  intros Hk Hv. destruct k' as [mn cf]. simpl.
  destruct (spec_cache m !! (mn, cf)) as [v'|] eqn:Hc.
  - destruct (decide (k = (mn, cf))) as [->|Hne].
    + assert (v' = v) as -> by congruence.
      rewrite (lookup_cached_machine _ _ _ _ Hc Hv). auto.
    + destruct v' as [sp|err].
      * rewrite (lookup_cached_machine _ _ _ _ Hc eq_refl). auto.
      * destruct (isinstance err AstroidBuildingError) eqn:Hi.
        -- rewrite (lookup_cached_error _ _ _ _ Hc Hi). simpl.
           unfold spec_cache in *. simpl. rewrite lookup_insert_ne by congruence.
           auto.
        -- rewrite (lookup_cached_machine _ _ _ (CachedError err) Hc).
           ++ auto.
           ++ unfold resettled. now rewrite Hi.
  - destruct (lookup_miss_machine _ _ _ Hc) as [Htr Hother].
    assert (Hne : k <> (mn, cf)) by congruence.
    split; [rewrite Hother; auto|].
    rewrite Htr, spec_lookups_snoc. destruct k as [a b]. simpl.
    case_bool_decide; [congruence | lia].
Qed.

Lemma run_lookups_keep_entry ks : forall k m v,
  spec_cache m !! k = Some v ->
  resettled v = v ->
  spec_cache (run_lookups ks m) !! k = Some v
  /\ spec_lookups k (trace (run_lookups ks m)) = spec_lookups k (trace m).
Proof.
  induction ks as [|k' ks IH]; intros k m v Hk Hv; simpl; [auto|].
  destruct (lookup_keeps_entry k k' m v Hk Hv) as [Hc Ht].
  destruct (IH k _ v Hc Hv) as [Hc' Ht']. split; [exact Hc' | congruence].
Qed.

(** C3 (as amended) — A spec lookup that fails with an [ImportError] is
    cached and never repeated; any other failure is not cached.  When the
    key is not cached and [file_info_from_modpath] raises [e]:

    - if [e] is an [ImportError], the call raises an [AstroidImportError]
      whose [error] field is [e] without the traceback [e] arrived with,
      and stores that object under the key; after any further lookups, a
      lookup of the same key raises that same error, leaves the machine
      untouched, and the trace shows exactly one spec lookup for the key
      since the first call.  The traceback of the error raised is the
      frame of the raise alone, at the first lookup and at every later
      one: it does not grow from one lookup to the next;
    - if [e] is anything else, [e] itself reaches the caller, the brain is
      left as it was, the key is still absent, and the next lookup of the
      key queries the resolver again.

    And whatever traceback a cached failure has come to carry, a lookup
    of its key raises it with the traceback reset to the frame of the
    raise, without a spec lookup. *)
Theorem failed_spec_lookup_cached modname contextfile m e w :
  spec_cache m !! (modname, contextfile) = None ->
  file_info_from_modpath (split_on "."%char modname) contextfile (world (state m))
    = (Raise e, w) ->
  let key := (modname, contextfile) in
  let m1 := snd (file_from_module_name modname contextfile m) in
  (isinstance e ImportError = true ->
     let err := raised_from_cache (failed_import_error modname e) in
     fst (file_from_module_name modname contextfile m) = Raise err
     /\ exc_class err = AstroidImportError
     /\ exc_error err = Some (with_traceback e None)
     /\ exc_traceback err = Some ["file_from_module_name"]
     /\ spec_cache m1 !! key = Some (CachedError err)
     /\ forall ks,
          file_from_module_name modname contextfile (run_lookups ks m1)
            = (Raise err, run_lookups ks m1)
          /\ spec_lookups key (trace (run_lookups ks m1))
             = spec_lookups key (trace m) + 1)
  /\ (isinstance e ImportError = false ->
        file_from_module_name modname contextfile m
        = (Raise e,
           mkMachine (mkState (brain (state m)) (visitors (state m)) w)
                     (trace m ++ [EvSpecLookup modname contextfile]))
        /\ spec_cache m1 !! key = None
        /\ spec_lookups key
             (trace (snd (file_from_module_name modname contextfile m1)))
           = spec_lookups key (trace m) + 2)
  /\ (forall m' kept,
        spec_cache m' !! key = Some (CachedError kept) ->
        isinstance kept AstroidBuildingError = true ->
        fst (file_from_module_name modname contextfile m')
          = Raise (raised_from_cache kept)
        /\ exc_traceback (raised_from_cache kept) = Some ["file_from_module_name"]
        /\ spec_cache (snd (file_from_module_name modname contextfile m')) !! key
           = Some (CachedError (raised_from_cache kept))
        /\ trace (snd (file_from_module_name modname contextfile m')) = trace m').
Proof.
  intros Hc Hf key m1. split; [|split].
  - intros Hi err.
    assert (Hrun : file_from_module_name modname contextfile m =
                   (Raise err,
                    mkMachine
                      (mkState
                         (with_mod_file_cache (brain (state m))
                            (<[key := CachedError err]>
                               (<[key := CachedError (failed_import_error modname e)]>
                                  (_mod_file_cache (brain (state m))))))
                         (visitors (state m)) w)
                      (trace m ++ [EvSpecLookup modname contextfile]))).
    { unfold file_from_module_name, raise_cached, spec_cache in *. msimpl.
      rewrite Hc. simpl. rewrite Hf. simpl. rewrite Hi. reflexivity. }
    subst m1. rewrite Hrun. simpl.
    match goal with |- context [run_lookups _ ?mm] => set (m1 := mm) end.
    assert (Hstored : spec_cache m1 !! key = Some (CachedError err)).
    { unfold spec_cache, m1. simpl. apply lookup_insert_eq. }
    assert (Hsettled : resettled (CachedError err) = CachedError err).
    { reflexivity. }
    repeat split; auto.
    + destruct (run_lookups_keep_entry ks _ _ _ Hstored Hsettled) as [Hk _].
      rewrite (lookup_cached_error _ _ _ _ Hk eq_refl).
      change (raised_from_cache err) with err. f_equal.
      unfold spec_cache in Hk. rewrite (insert_id _ _ _ Hk).
      destruct (run_lookups ks m1) as [[b vs w'] tr]. destruct b. reflexivity.
    + destruct (run_lookups_keep_entry ks _ _ _ Hstored Hsettled) as [_ Ht].
      rewrite Ht. unfold m1. simpl. rewrite spec_lookups_snoc. simpl.
      case_bool_decide; [lia | congruence].
  - intros Hi.
    assert (Hrun : file_from_module_name modname contextfile m =
                   (Raise e,
                    mkMachine (mkState (brain (state m)) (visitors (state m)) w)
                              (trace m ++ [EvSpecLookup modname contextfile]))).
    { unfold file_from_module_name, spec_cache in *. msimpl.
      rewrite Hc. simpl. rewrite Hf. simpl. rewrite Hi. reflexivity. }
    subst m1. rewrite Hrun. simpl. split; [reflexivity|].
    split; [exact Hc|].
    match goal with |- context [file_from_module_name _ _ ?mm] => set (m1 := mm) end.
    assert (Hc1 : spec_cache m1 !! (modname, contextfile) = None) by exact Hc.
    destruct (lookup_miss_machine _ _ _ Hc1) as [Htr _]. rewrite Htr.
    unfold m1. simpl. rewrite !spec_lookups_snoc. simpl.
    case_bool_decide; [lia | congruence].
  - intros m' kept Hk Hi. rewrite (lookup_cached_error _ _ _ _ Hk Hi). simpl.
    repeat split. unfold spec_cache. simpl. apply lookup_insert_eq.
Qed.

End SpecCache.

(** ** Failure hooks *)

Section Hooks.
Context {W : Type} `{Env W}.

(** Registering hooks appends them to the list, in the order of the
    calls. *)
Lemma register_hooks_list (hs : list Hook) : forall m : Machine W,
  hook_list (state (snd (register_hooks hs m))) = hook_list (state m) ++ hs.
Proof.
  induction hs as [|h hs IH]; intros m; simpl.
  - now rewrite app_nil_r.
  - unfold mbind, M_bind, bind, register_failed_import_hook, get_brain, set_brain.
    simpl. rewrite IH. unfold hook_list. simpl. now rewrite <- app_assoc.
Qed.

(** The loop over the hooks that fail one after the other. *)
Lemma try_hooks_chain (modname : string) (called : list Hook) :
  forall (budget i : nat) (e : PyExc) (m : Machine W) (s1 : State W),
    all_fail modname i (state m) called s1 ->
    try_hooks (length called + budget) i modname e m
    = try_hooks budget (i + length called) modname e
        (mkMachine s1 (trace m ++ hook_events modname called)).
Proof.
  induction called as [|h called IH]; intros budget i e m s1 Hfail.
  - inversion Hfail; subst. simpl. rewrite Nat.add_0_r, app_nil_r.
    now destruct m.
  - inversion Hfail as [|? ? ? ? s' ? e' Hat Hcall Hinst Hrest]; subst.
    cbn [length Nat.add try_hooks]. unfold hook_list in Hat. rewrite Hat.
    unfold try_catch at 1. msimpl. rewrite Hcall. simpl. rewrite Hinst.
    rewrite (IH budget (S i) e (mkMachine s' (trace m ++ [EvHook h modname])) s1 Hrest).
    simpl. rewrite <- app_assoc. simpl.
    now replace (i + S (length called)) with (S (i + length called)) by lia.
Qed.

(** When hooks change the list by registering only, the hooks called are
    the entries of the final list from the starting index on. *)
Lemma all_fail_order (modname : string) (i : nat) (s s1 : State W)
    (called : list Hook) :
  hooks_only_register modname ->
  all_fail modname i s called s1 ->
  exists added,
    hook_list s1 = hook_list s ++ added
    /\ take (length called) (drop i (hook_list s1)) = called.
Proof.
  intros Hreg Hfail.
  induction Hfail as [i s|i h called s s' s2 e Hat Hcall Hinst Hrest IH].
  - exists []. split; [now rewrite app_nil_r | reflexivity].
  - destruct (Hreg _ _ _ _ Hcall) as [a1 Ha1].
    destruct IH as (a2 & Ha2 & Htake).
    exists (a1 ++ a2). split.
    + rewrite Ha2, Ha1. now rewrite <- app_assoc.
    + assert (Hat2 : hook_list s2 !! i = Some h).
      { rewrite Ha2, Ha1, <- app_assoc. now apply lookup_app_l_Some. }
      rewrite (drop_S _ _ _ Hat2). simpl. now rewrite Htake.
Qed.

Lemma ast_from_module_name_miss (d : nat) (self : AstroidManager)
    (modname : string) (context_file : option string) (m m0 : Machine W)
    (cleanup : M W unit) :
  astroid_cache (brain (state m)) !! modname = None ->
  modname <> "__main__" ->
  enters_try context_file m m0 cleanup ->
  ast_from_module_name (S d) self modname context_file m
  = leave cleanup
      (resolve_or_hooks (ast_from_file d self) (ast_from_module d self) (S d)
                        self modname context_file m0).
Proof.
  intros Hmiss Hmain Henter. simpl. unfold ast_from_module_name_body.
  unfold mbind at 1, M_bind at 1, bind at 1, get_brain at 1. rewrite Hmiss.
  destruct (String.eqb_spec modname "__main__") as [|_]; [contradiction|].
  unfold enters_try in Henter. destruct (truthy_opt context_file).
  - destruct Henter as (old & w1 & w2 & Hcwd & Hcd & -> & ->).
    unfold mbind, M_bind, bind, in_world, try_finally, leave. simpl.
    rewrite Hcwd. simpl. rewrite Hcd. simpl.
    destruct (resolve_or_hooks _ _ _ _ _ _ _) as [r m']. reflexivity.
  - destruct Henter as [-> ->]. unfold try_finally, leave.
    destruct (resolve_or_hooks _ _ _ _ _ _ _) as [r m']. reflexivity.
Qed.

(** C2 (as amended) — The failure-hook chain.  The hooks [hs] are
    registered with [register_failed_import_hook], which appends them to
    the hook list in the order of the calls.  When the [try] block of
    [ast_from_module_name] then raises an [AstroidBuildingError] [e], the
    handler walks the hook list itself, index by index: for any hooks
    [called] so far, each the entry at its index when its turn came and
    each raising an [AstroidBuildingError],

    - if the next entry returns a tree, that tree is the result and no
      later hook is called;
    - if there is no next entry, the error raised is [e];
    - if the next entry raises any other exception, the chain ends with
      that exception, no later hook being called;
    - when hooks change the list by registering only and the [try] block
      has left it alone, the hooks called are the first entries, in
      order, of the hooks registered before, followed by [hs], followed
      by the hooks registered while the chain ran.

    In each case the trace shows exactly the hooks called, and the outcome
    leaves through the [finally] clause. *)
Theorem failed_import_hooks_chain (d : nat) (self : AstroidManager)
    (modname : string) (context_file : option string) (hs : list Hook)
    (before m0 m1 : Machine W) (cleanup : M W unit) (e : PyExc) :
  let m := snd (register_hooks hs before) in
  astroid_cache (brain (state m)) !! modname = None ->
  modname <> "__main__" ->
  enters_try context_file m m0 cleanup ->
  resolve_spec (ast_from_file d self) (ast_from_module d self)
               self modname context_file m0 = (Raise e, m1) ->
  isinstance e AstroidBuildingError = true ->
  let run := ast_from_module_name (S d) self modname context_file m in
  let after called s := mkMachine s (trace m1 ++ hook_events modname called) in
  hook_list (state m) = hook_list (state before) ++ hs
  /\ forall called s1,
       all_fail modname 0 (state m1) called s1 ->
       (forall h t s2,
           hook_list s1 !! length called = Some h ->
           length called <= d ->
           call_hook h modname s1 = (Ok t, s2) ->
           run = leave cleanup (Ok t, after (called ++ [h]) s2))
       /\ (hook_list s1 !! length called = None ->
           length called <= S d ->
           run = leave cleanup (Raise e, after called s1))
       /\ (forall h e' s2,
              hook_list s1 !! length called = Some h ->
              length called <= d ->
              call_hook h modname s1 = (Raise e', s2) ->
              isinstance e' AstroidBuildingError = false ->
              run = leave cleanup (Raise e', after (called ++ [h]) s2))
       /\ (hooks_only_register modname ->
           hook_list (state m1) = hook_list (state m) ->
           exists added,
             hook_list s1 = hook_list (state before) ++ hs ++ added
             /\ called = take (length called)
                              (hook_list (state before) ++ hs ++ added)).
Proof.
  intros m Hmiss Hmain Henter Hres Hinst run after.
  split; [apply register_hooks_list|].
  intros called s1 Hfail.
  assert (Hrun : run = leave cleanup (try_hooks (S d) 0 modname e m1)).
  { subst run. rewrite (ast_from_module_name_miss _ _ _ _ _ _ _ Hmiss Hmain Henter).
    f_equal. unfold resolve_or_hooks, try_catch. rewrite Hres, Hinst. reflexivity. }
  rewrite Hrun. subst after. split; [|split; [|split]].
  - intros h t s2 Hat Hd Hcall. f_equal.
    replace (S d) with (length called + S (d - length called)) by lia.
    rewrite (try_hooks_chain _ _ _ _ _ _ _ Hfail).
    cbn [try_hooks Nat.add state brain]. unfold hook_list in Hat. rewrite Hat.
    unfold try_catch. msimpl. rewrite Hcall.
    unfold hook_events. now rewrite map_app, app_assoc.
  - intros Hat Hd. f_equal.
    replace (S d) with (length called + (S d - length called)) by lia.
    rewrite (try_hooks_chain _ _ _ _ _ _ _ Hfail).
    destruct (S d - length called); cbn [try_hooks Nat.add state brain];
      unfold hook_list in Hat; rewrite Hat; reflexivity.
  - intros h e' s2 Hat Hd Hcall He'. f_equal.
    replace (S d) with (length called + S (d - length called)) by lia.
    rewrite (try_hooks_chain _ _ _ _ _ _ _ Hfail).
    cbn [try_hooks Nat.add state brain]. unfold hook_list in Hat. rewrite Hat.
    unfold try_catch. msimpl. rewrite Hcall. simpl. rewrite He'.
    unfold hook_events. now rewrite map_app, app_assoc.
  - intros Hreg Hkept.
    destruct (all_fail_order _ _ _ _ _ Hreg Hfail) as (added & Hl & Htake).
    rewrite drop_0 in Htake.
    rewrite Hkept in Hl. unfold m in Hl. rewrite register_hooks_list in Hl.
    rewrite <- app_assoc in Hl.
    exists added. split; [exact Hl|]. now rewrite <- Hl, Htake.
Qed.

End Hooks.

Lemma failed_import_hooks_chain_witness :
  fst (@ast_from_module_name nat registering_env
         2 a_manager "missing" None (snd (@register_hooks nat [1] start)))
  = Ok helpful_tree.
Proof.
  set (env := registering_env).
  set (m := snd (@register_hooks nat [1] start)).
  set (out := @resolve_spec nat env (@ast_from_file nat env 1 a_manager)
                (@ast_from_module nat env 1 a_manager) a_manager "missing" None m).
  pose proof (@failed_import_hooks_chain nat env 1 a_manager "missing" None
                [1] start m (snd out) (ret tt)
                (raised_from_cache
                   (@failed_import_error "missing"
                      (new_exc ImportError "No module named")))
                eq_refl) as T.
  destruct T as [_ T]; [discriminate | split; reflexivity | reflexivity | reflexivity |].
  set (s1 := snd (@call_hook nat env 1 "missing" (state (snd out)))).
  destruct (T [1] s1) as [T1 _].
  - eapply all_fail_cons; [reflexivity | reflexivity | reflexivity | apply all_fail_nil].
  - etransitivity;
      [apply (f_equal fst);
       apply (T1 2 helpful_tree s1); [reflexivity | simpl; lia | reflexivity]
      | reflexivity].
Defined.

(** C2, counterexample — One hook is registered and it fails with a
    [ValueError]: the error is not suppressed, and although every hook has
    failed the caller receives the hook's error, not the original
    resolution error. *)
Lemma hook_error_escapes :
  fst (@resolve_spec nat faulty_env (@ast_from_file nat faulty_env 0 a_manager)
         (@ast_from_module nat faulty_env 0 a_manager) a_manager "missing" None
         (with_hooks start [1]))
    = Raise (raised_from_cache
               (failed_import_error "missing" (new_exc ImportError "No module named")))
  /\ fst (@call_hook nat faulty_env 1 "missing" (state (with_hooks start [1])))
    = Raise (new_exc ValueError "hook broke")
  /\ fst (@ast_from_module_name nat faulty_env 1 a_manager "missing" None
            (with_hooks start [1]))
    = Raise (new_exc ValueError "hook broke").
Proof. repeat split; reflexivity. Qed.

(** C3, counterexample — A spec lookup that fails with an [OSError] is not
    stored: after the failed call the key is still absent from the cache,
    and a second lookup of the same key queries the resolver again, so the
    trace shows two lookups for the key. *)
Lemma uncached_spec_failure :
  fst (first_lookup denied_env) = Raise (new_exc OSError "permission denied")
  /\ _mod_file_cache (brain (state (snd (first_lookup denied_env))))
       !! ("pkg", None) = None
  /\ trace (snd (@file_from_module_name nat denied_env "pkg" None
                   (snd (first_lookup denied_env))))
     = [EvSpecLookup "pkg" None; EvSpecLookup "pkg" None].
Proof. repeat split; reflexivity. Qed.

Lemma failed_spec_lookup_cached_witness :
  @file_from_module_name nat traced_env "pkg" None
    (@run_lookups nat traced_env [("other", None); ("pkg", None)]
       (snd (first_lookup traced_env)))
  = (Raise (raised_from_cache (failed_import_error "pkg" traced_import_error)),
     @run_lookups nat traced_env [("other", None); ("pkg", None)]
       (snd (first_lookup traced_env))).
Proof.
  destruct (@failed_spec_lookup_cached nat traced_env "pkg" None start
              traced_import_error 1 eq_refl eq_refl) as [Cached _].
  destruct (Cached eq_refl) as (_ & _ & _ & _ & _ & Later).
  exact (proj1 (Later [("other", None); ("pkg", None)])).
Defined.

(** ** Archive import *)

Section Archive.
Context {W : Type} `{Env W}.

Lemma unpack_rsplit_error (sep s : string) (e : PyExc) :
  unpack_rsplit sep s = Raise e -> isinstance e ValueError = true.
Proof.
  unfold unpack_rsplit. destruct (rsplit_once sep s); [discriminate|].
  intros [= <-]. reflexivity.
Qed.

Lemma zip_import_loop_returns (self : AstroidManager) (filepath : string)
    (exts : list string) :
  forall m : Machine W,
    exists r m', zip_import_loop self (Some filepath) exts m = (Ok r, m').
Proof.
  induction exts as [|ext rest IH]; intros m; simpl.
  - eexists _, _. reflexivity.
  - destruct (unpack_rsplit _ filepath) as [[eggpath resource]|e] eqn:Hsplit.
    + unfold try_catch.
      destruct ((module ← zip_attempt self filepath ext eggpath resource;
                 ret (Some module)) m) as [[r|e] m'] eqn:Hrun.
      * eexists _, _. reflexivity.
      * rewrite isinstance_Exception. apply IH.
    + rewrite (unpack_rsplit_error _ _ _ Hsplit). apply IH.
Qed.

(** C8 — Archive import absorbs its failures.  For every [filepath]:
    [zip_import_data] always returns, a tree or [None], and never raises;
    when the extraction attempted for a suffix fails, with whatever
    exception, the loop goes on with the next suffix from the state the
    attempt left; and when [zip_import_data] returns [None] for an
    archive-packed spec, the [try] block of [ast_from_module_name] goes on
    with [ast_from_file(location, modname, fallback=False)]. *)
Theorem zip_import_absorbs_failures (self : AstroidManager) (filepath : string) :
  (forall m : Machine W,
      exists r m', zip_import_data self (Some filepath) m = (Ok r, m'))
  /\ (forall ext rest eggpath resource e (m m1 : Machine W),
        unpack_rsplit (String.append ext (String os_path_sep EmptyString)) filepath
          = Ok (eggpath, resource) ->
        zip_attempt self filepath ext eggpath resource m = (Raise e, m1) ->
        zip_import_loop self (Some filepath) (ext :: rest) m
          = zip_import_loop self (Some filepath) rest m1)
  /\ (forall d modname context_file found_spec (m m1 m2 : Machine W),
        file_from_module_name modname context_file m
          = (Ok (CachedSpec found_spec), m1) ->
        type found_spec = PY_ZIPMODULE ->
        location found_spec = Some filepath ->
        zip_import_data self (Some filepath) m1 = (Ok None, m2) ->
        resolve_spec (ast_from_file d self) (ast_from_module d self)
                     self modname context_file m
          = ast_from_file d self filepath (Some modname) false false m2).
Proof.
  split; [|split].
  - intros m. apply zip_import_loop_returns.
  - intros ext rest eggpath resource e m m1 Hsplit Hfail. simpl.
    rewrite Hsplit. unfold try_catch, mbind, M_bind, bind. rewrite Hfail.
    now rewrite isinstance_Exception.
  - intros d modname context_file found_spec m m1 m2 Hspec Htype Hloc Hzip.
    unfold resolve_spec, dispatch_on_type.
    unfold mbind at 1, M_bind at 1, bind at 1. rewrite Hspec.
    unfold mbind at 1, M_bind at 1, bind at 1, ret at 1.
    unfold mbind at 1, M_bind at 1, bind at 1.
    rewrite Htype, Hloc, Hzip. reflexivity.
Qed.

End Archive.

Lemma zip_import_absorbs_failures_witness :
  @zip_import_loop nat plain_env a_manager (Some "site/lib.zip/pkg/mod.py")
     (".zip" :: [".egg"; ".whl"; ".pyz"; ".pyzw"]) start
  = @zip_import_loop nat plain_env a_manager (Some "site/lib.zip/pkg/mod.py")
     [".egg"; ".whl"; ".pyz"; ".pyzw"] start.
Proof.
  apply (proj1 (proj2 (@zip_import_absorbs_failures nat plain_env a_manager
                         "site/lib.zip/pkg/mod.py"))
           ".zip" [".egg"; ".whl"; ".pyz"; ".pyzw"] "site/lib" "pkg/mod.py"
           (new_exc ImportError "not a zip file") start start);
    reflexivity.
Defined.

(** ** Resolution by file *)

Section ByFile.
Context {W : Type} `{Env W}.

(** C4 (as amended) — The cache rule of [ast_from_file].  With [fp] the
    source form of the path, [src] the source flag and [mn] the module
    name: a tree cached under [mn] whose file is [fp] is returned at once
    and nothing is built or changed.  A tree cached under [mn] with another
    file is passed over by this test: with a source form the result is the
    builder's build of the file; without one, when [fallback] is set and
    the name is non-empty, the call resolves by name, which returns the
    tree cached under that name; otherwise it raises
    [AstroidBuildingError].  With no tree cached under [mn] the call
    builds or falls back in the same way. *)
Theorem ast_from_file_cache_rule (d : nat) (self : AstroidManager)
    (filepath : string) (modname : option string) (fallback source : bool)
    (m m1 : Machine W) (fp : string) (src : bool) (mn : string) :
  source_form_and_name filepath modname source m = (Ok (fp, src, mn), m1) ->
  let run := ast_from_file (S d) self filepath modname fallback source m in
  let cache := astroid_cache (brain (state m1)) in
  (forall cached,
      cache !! mn = Some cached -> file cached = Some fp ->
      run = (Ok cached, m1))
  /\ (forall stale,
        cache !! mn = Some stale -> file stale <> Some fp ->
        (src = true -> run = in_state (file_build self fp mn) m1)
        /\ (src = false -> fallback = true -> mn <> "" ->
              run = ast_from_module_name d self mn None m1
              /\ forall d', d = S d' -> run = (Ok stale, m1))
        /\ (src = false -> fallback = false \/ mn = "" ->
              run = (Raise (no_source_error fp), m1)))
  /\ (cache !! mn = None ->
        run = build_or_fall_back (ast_from_module_name d self)
                                 self fp mn fallback src m1).
Proof.
  intros Hprep run cache.
  assert (Hrun : run =
    match cache !! mn with
    | Some cached =>
        if bool_decide (file cached = Some fp) then (Ok cached, m1)
        else build_or_fall_back (ast_from_module_name d self) self fp mn fallback src m1
    | None => build_or_fall_back (ast_from_module_name d self) self fp mn fallback src m1
    end).
  { subst run cache. simpl. unfold ast_from_file_body.
    unfold mbind at 1, M_bind at 1, bind at 1. rewrite Hprep.
    unfold mbind at 1, M_bind at 1, bind at 1, get_brain at 1.
    destruct (astroid_cache (brain (state m1)) !! mn) as [c|]; [|reflexivity].
    destruct (bool_decide (file c = Some fp)); reflexivity. }
  rewrite Hrun. split; [|split].
  - intros cached Hc Hf. rewrite Hc. now rewrite bool_decide_eq_true_2.
  - intros stale Hc Hf. rewrite Hc. rewrite bool_decide_eq_false_2 by exact Hf.
    unfold build_or_fall_back. split; [|split].
    + intros ->. reflexivity.
    + intros -> -> Hmn. unfold truthy.
      destruct (String.eqb_spec mn "") as [|_]; [contradiction|]. simpl.
      split; [reflexivity|]. intros d' ->. simpl.
      unfold ast_from_module_name_body, mbind, M_bind, bind, get_brain.
      fold cache. rewrite Hc. reflexivity.
    + intros -> [-> | ->]; [reflexivity|]. simpl. now rewrite andb_false_r.
  - intros Hc. rewrite Hc. reflexivity.
Qed.

End ByFile.

(** C4, counterexample — [mod] is cached with file [a/mod.py]; resolving
    the file [b/mod.so], which has no source form, under the same name with
    fallback allowed returns the cached tree although its file differs. *)
Lemma stale_entry_returned_by_fallback :
  astroid_cache (brain (state (with_cached start stale_tree))) !! "mod"
    = Some stale_tree
  /\ file stale_tree <> Some "b/mod.so"
  /\ @ast_from_file nat plain_env 2 a_manager "b/mod.so" (Some "mod") true false
       (with_cached start stale_tree)
     = (Ok stale_tree, with_cached start stale_tree).
Proof. split; [reflexivity|]. split; [discriminate | reflexivity]. Qed.

Lemma ast_from_file_cache_rule_witness :
  @ast_from_file nat plain_env 2 a_manager "b/mod.so" (Some "mod") true false
    (with_cached start stale_tree)
  = (Ok stale_tree, with_cached start stale_tree).
Proof.
  pose proof (@ast_from_file_cache_rule nat plain_env 1 a_manager "b/mod.so"
                (Some "mod") true false (with_cached start stale_tree)
                (with_cached start stale_tree) "b/mod.so" false "mod" eq_refl)
    as [_ [Hstale _]].
  destruct (Hstale stale_tree eq_refl) as [_ [Hfall _]]; [discriminate|].
  destruct (Hfall eq_refl eq_refl) as [_ Hret]; [discriminate|].
  exact (Hret 0 eq_refl).
Defined.

(** ** Resolution by class *)

Section ByClass.
Context {W : Type} `{Env W}.

(** A class object without [__module__] is reported as an
    [AstroidBuildingError]. *)
Lemma ast_from_class_without_module (d : nat) (self : AstroidManager)
    (klass : PyObject) (m : Machine W) (exc : PyExc) :
  __module__ klass = Raise exc ->
  isinstance exc AttributeError = true ->
  exists e, ast_from_class d self klass None m = (Raise e, m)
            /\ exc_class e = AstroidBuildingError
            /\ exc_cause e = Some exc.
Proof.
  intros Hmod Hattr. unfold ast_from_class. msimpl. rewrite Hmod, Hattr.
  eexists. split; [reflexivity|]. split; reflexivity.
Qed.

(** A class object without [__name__], whose module resolves: the
    exception of the attribute access reaches the caller as it is. *)
Lemma ast_from_class_without_name (d : nat) (self : AstroidManager)
    (klass : PyObject) (m : Machine W) (modname : string) (tree : AstModule)
    (exc : PyExc) :
  __module__ klass = Ok modname ->
  astroid_cache (brain (state m)) !! modname = Some tree ->
  __name__ klass = Raise exc ->
  ast_from_class (S d) self klass None m = (Raise exc, m).
Proof.
  intros Hmod Hc Hname. unfold ast_from_class. simpl.
  unfold ast_from_module_name_body. msimpl. rewrite Hmod. simpl.
  rewrite Hc, Hname. reflexivity.
Qed.

End ByClass.

(** C9, at the failing input — [ast_from_class] on an object without
    [__name__] raises the [AttributeError] of the attribute access, which is
    not an [AstroidBuildingError]; [infer_ast_from_something] on the same
    object raises an [AstroidBuildingError]. *)
Theorem ast_from_class_nameless :
  fst (@ast_from_class nat plain_env 1 a_manager nameless None
         (with_cached start stale_tree))
    = Raise (new_exc AttributeError "__name__")
  /\ isinstance (new_exc AttributeError "__name__") AstroidBuildingError = false
  /\ exists e,
       fst (@infer_ast_from_something nat plain_env 1 a_manager nameless
              (with_cached start stale_tree)) = Raise e
       /\ exc_class e = AstroidBuildingError.
Proof.
  split; [reflexivity|]. split; [reflexivity|].
  eexists. split; reflexivity.
Qed.

(** ** Reset *)

(** C5, at the failing input — An instance registers transform [7] and is
    then reset.  The brain now refers to a new, empty [TransformVisitor],
    and the cache holds the built-in tree only; but the instance still
    refers to the old visitor, and when it applies its transforms to a tree
    the transform registered before the reset is applied. *)
Theorem transform_survives_reset :
  let run :=
    (self ← @__init__ nat;
     cache_module stale_tree;;
     register_transform self 7;;
     @clear_cache nat plain_env self;;
     @visit_transforms nat plain_env self helpful_tree;;
     ret self) start in
  exists self m,
    run = (Ok self, m)
    /\ dom (astroid_cache (brain (state m))) = {["builtins"]}
    /\ _transform (brain (state m)) <> self__transform self
    /\ visitors (state m) !! _transform (brain (state m))
       = Some (mkTransformVisitor [])
    /\ trace m = [EvTransform 7 helpful_tree].
Proof.
  eexists _, _. split; [vm_compute; reflexivity|].
  split; [vm_compute; reflexivity|].
  split; [vm_compute; discriminate|].
  split; vm_compute; reflexivity.
Qed.

End ManagerFacts.

(* ===================================================================== *)
(** * Further properties of the scoped-node mixin                         *)
(* ===================================================================== *)

Module MixinExtras.
Import Mixin MixinTerms MoreMixinTerms MixinFacts.

(** ** The dict-like view *)

Lemma dict_contains_keys {V} (d : dict V) (k : string) :
  dict_contains d k = existsb (String.eqb k) (dict_keys d).
Proof.
  unfold dict_contains. induction d as [|[k0 v0] d IH]; simpl; [reflexivity|].
  destruct (String.eqb k k0); [reflexivity | exact IH].
Qed.

Lemma dict_keys_set {V} (d : dict V) (k : string) (v : V) :
  dict_keys (dict_set d k v) = register_name (dict_keys d) k.
Proof.
  unfold register_name. induction d as [|[k0 v0] d IH]; simpl; [reflexivity|].
  destruct (String.eqb k k0) eqn:E; simpl; [reflexivity|].
  rewrite IH. destruct (existsb (String.eqb k) (dict_keys d)); reflexivity.
Qed.

Lemma register_name_idem (names : list string) (k : string) :
  register_name (register_name names k) k = register_name names k.
Proof.
  unfold register_name. destruct (existsb (String.eqb k) names) eqn:E.
  - now rewrite E.
  - rewrite existsb_app. simpl.
    rewrite String.eqb_refl, orb_true_r. reflexivity.
Qed.

Lemma keys_set_local (self : NodeNG) (x : string) (s : NodeNG) :
  keys (set_local self x s) = register_name (keys self) x.
Proof.
  unfold keys, set_local, dict_setdefault.
  destruct (dict_get (locals self) x) as [l|] eqn:E; simpl.
  - apply dict_keys_set.
  - rewrite !dict_keys_set. apply register_name_idem.
Qed.

Lemma keys_apply_op (self : NodeNG) (op : BindOp) :
  keys (apply_op self op)
  = fold_left register_name (map fst (binding_of self op)) (keys self).
Proof.
  destruct op as [x s|x s|c nm]; simpl; try apply keys_set_local.
  unfold add_local_node.
  destruct (bool_decide (nm = Some "__class__")).
  - destruct (name_or nm c) as [k|e]; simpl; [apply keys_set_local | reflexivity].
  - unfold _append_node. destruct (body self) as [b|]; simpl.
    + rewrite name_or_with_parent.
      destruct (name_or nm c) as [k|e]; simpl; [|reflexivity].
      rewrite keys_set_local. reflexivity.
    + destruct (name_or nm c); reflexivity.
Qed.

Lemma keys_apply_ops (ops : list BindOp) : forall self : NodeNG,
  keys (apply_ops self ops)
  = fold_left register_name (map fst (bindings self ops)) (keys self).
Proof.
  induction ops as [|op ops IH]; intros self; simpl; [reflexivity|].
  unfold apply_ops in *. simpl.
  rewrite IH, keys_apply_op, map_app, fold_left_app. reflexivity.
Qed.

Lemma existsb_eqb_In (k : string) (l : list string) :
  existsb (String.eqb k) l = true <-> In k l.
Proof.
  rewrite existsb_exists. split.
  - intros (y & Hy & E). apply String.eqb_eq in E. now subst.
  - intros Hk. exists k. split; [exact Hk | apply String.eqb_refl].
Qed.

Lemma register_name_NoDup (names : list string) (k : string) :
  NoDup names -> NoDup (register_name names k).
Proof.
  intros Hn. unfold register_name.
  destruct (existsb (String.eqb k) names) eqn:E; [exact Hn|].
  apply NoDup_app. split; [exact Hn|]. split.
  - intros y Hy Hin. apply list_elem_of_In in Hy, Hin.
    destruct Hin as [<-|[]].
    assert (existsb (String.eqb k) names = true) by now apply existsb_eqb_In.
    congruence.
  - apply NoDup_singleton.
Qed.

Lemma fold_register_NoDup (ks names : list string) :
  NoDup names -> NoDup (fold_left register_name ks names).
Proof.
  revert names. induction ks as [|k ks IH]; intros names Hn; simpl; [exact Hn|].
  apply IH, register_name_NoDup, Hn.
Qed.

(** X1 — [keys()] reflects registration order.  After any sequence of
    binding operations on a new scope, [keys()] lists every bound name
    exactly once, in the order in which the names were first bound;
    binding a name again does not move it. *)
Theorem keys_in_registration_order (self : NodeNG) (ops : list BindOp) :
  locals self = [] ->
  keys (apply_ops self ops) = registration_order (bindings self ops)
  /\ NoDup (keys (apply_ops self ops)).
Proof.
  intros Hnew.
  assert (Hk : keys (apply_ops self ops) = registration_order (bindings self ops)).
  { rewrite keys_apply_ops. unfold keys. rewrite Hnew. reflexivity. }
  split; [exact Hk|]. rewrite Hk. apply fold_register_NoDup. constructor.
Qed.

Lemma keys_in_registration_order_witness :
  keys (apply_ops demo_function demo_ops) = ["a"; "b"; "__class__"].
Proof.
  apply (proj1 (keys_in_registration_order demo_function demo_ops eq_refl)).
Defined.

(** X2 — Membership, [keys()] and [KeyError] agree.  For every scope and
    name: [name in scope] holds exactly when [keys()] lists the name, and
    it fails exactly when [scope[name]] raises a [KeyError]. *)
Theorem contains_agrees_with_keys (self : NodeNG) (n : string) :
  (__contains__ self n = true <-> In n (keys self))
  /\ (__contains__ self n = false <->
      exists e, __getitem__ self n = Raise e /\ isinstance e KeyError = true).
Proof.
  unfold __contains__, keys, __getitem__, dict_getitem. split.
  - rewrite dict_contains_keys. apply existsb_eqb_In.
  - unfold dict_contains. destruct (dict_get (locals self) n) as [l|].
    + split; [discriminate|]. intros (e & He & Hk).
      destruct l; simpl in He; [|discriminate].
      injection He as <-. discriminate.
    + split; [|reflexivity]. intros _. eexists. split; reflexivity.
Qed.

Lemma comprehension_length {A B} (f : A -> Result B) (l : list A) (ys : list B) :
  comprehension f l = Ok ys -> length ys = length l.
Proof.
  revert ys. induction l as [|x l IH]; intros ys; simpl.
  - intros [= <-]. reflexivity.
  - destruct (f x); [|discriminate].
    destruct (comprehension f l); [|discriminate].
    intros [= <-]. simpl. f_equal. now apply IH.
Qed.

Lemma comprehension_total {A B} (f : A -> Result B) (l : list A) :
  (forall x, In x l -> exists y, f x = Ok y) ->
  exists ys, comprehension f l = Ok ys.
Proof.
  induction l as [|x l IH]; intros Hall; simpl.
  - eexists. reflexivity.
  - destruct (Hall x) as [y ->]; [now left|].
    destruct IH as [ys ->]; [intros x' Hx'; apply Hall; now right|].
    eexists. reflexivity.
Qed.

Lemma getitem_of_key (self : NodeNG) (n : string) :
  In n (keys self) ->
  (exists s, __getitem__ self n = Ok s)
  \/ (dict_get (locals self) n = Some []
      /\ exists e, __getitem__ self n = Raise e /\ isinstance e IndexError = true).
Proof.
  intros Hin. apply dict_get_keys in Hin. unfold __getitem__, dict_getitem.
  destruct (dict_get (locals self) n) as [[|s l]|]; [| |congruence].
  - right. split; [reflexivity|]. eexists. split; reflexivity.
  - left. exists s. reflexivity.
Qed.

Lemma comprehension_getitem (self : NodeNG) (ks : list string) :
  (forall k, In k ks -> In k (keys self)) ->
  (exists vs, comprehension (__getitem__ self) ks = Ok vs)
  \/ (exists e, comprehension (__getitem__ self) ks = Raise e
                /\ isinstance e IndexError = true).
Proof.
  induction ks as [|k ks IH]; intros Hks; simpl.
  - left. eexists. reflexivity.
  - destruct (getitem_of_key self k) as [(s & ->)|(_ & e & -> & He)].
    + apply Hks. now left.
    + destruct IH as [(vs & ->)|(e & -> & He)].
      * intros k' Hk'. apply Hks. now right.
      * left. eexists. reflexivity.
      * right. exists e. auto.
    + right. exists e. auto.
Qed.

Lemma comprehension_hollow (self : NodeNG) (ks : list string) (n : string) :
  In n ks -> dict_get (locals self) n = Some [] ->
  forall vs, comprehension (__getitem__ self) ks <> Ok vs.
Proof.
  induction ks as [|k ks IH]; intros Hin Hn vs; simpl; [destruct Hin|].
  destruct (String.eqb_spec k n) as [->|Hne].
  - unfold __getitem__ at 1, dict_getitem. rewrite Hn. simpl. discriminate.
  - destruct Hin as [?|Hin]; [congruence|].
    destruct (__getitem__ self k); [|discriminate].
    destruct (comprehension (__getitem__ self) ks) eqn:E; [|discriminate].
    exfalso. exact (IH Hin Hn _ eq_refl).
Qed.

(** X3 — [values()] and [items()] give one entry per name, or fail on a
    hollow entry.  When every name of the table maps to a non-empty list,
    [values()] and [items()] succeed with as many entries as [keys()], and
    [items()] pairs each key with the value at the same position; when
    some name maps to the empty list, both raise an [IndexError]. *)
Theorem values_one_per_key (self : NodeNG) :
  ((forall n l, dict_get (locals self) n = Some l -> l <> []) ->
     exists vs, values self = Ok vs
                /\ length vs = length (keys self)
                /\ items self = Ok (combine (keys self) vs))
  /\ (forall n, dict_get (locals self) n = Some [] ->
        exists e, values self = Raise e /\ isinstance e IndexError = true
                  /\ items self = Raise e).
Proof.
  split.
  - intros Hfull. unfold items, values.
    destruct (comprehension_total (__getitem__ self) (keys self)) as [vs E].
    + intros k Hk.
      destruct (getitem_of_key self k Hk) as [Hs|(Hk' & _)]; [exact Hs|].
      exfalso. exact (Hfull _ _ Hk' eq_refl).
    + exists vs. rewrite E. split; [reflexivity|]. split; [|reflexivity].
      exact (comprehension_length _ _ _ E).
  - intros n Hn. unfold items, values.
    assert (Hin : In n (keys self)) by (apply dict_get_keys; congruence).
    destruct (comprehension_getitem self (keys self)) as [(vs & Hvs)|(e & He & Hi)];
      [auto | |].
    + exfalso. exact (comprehension_hollow self _ n Hin Hn vs Hvs).
    + exists e. rewrite He. auto.
Qed.

Lemma values_one_per_key_witness :
  exists e, values hollow_scope = Raise e /\ isinstance e IndexError = true
            /\ items hollow_scope = Raise e.
Proof.
  apply (proj2 (values_one_per_key hollow_scope) "b"). reflexivity.
Defined.

(** X4 — What a failing [add_local_node] leaves behind, for every name
    argument other than ["__class__"] (for which the child is not
    appended at all).  On a scope without a list-valued [body] the call
    raises [AttributeError] and changes nothing.  On a scope with a body,
    when no name is given and the child has none, the call raises
    [AttributeError] after the child has been appended: the body has grown
    by the child, now pointing to the scope as its parent, and the table
    is unchanged. *)
Theorem add_local_node_failures (self child_node : NodeNG) (name : option string) :
  name <> Some "__class__" ->
  (body self = None ->
     exists e, add_local_node self child_node name
               = (Raise e, (self, child_node))
               /\ isinstance e AttributeError = true)
  /\ (forall b, body self = Some b ->
        name_or name child_node = Raise (new_exc AttributeError "name") ->
        exists self',
          add_local_node self child_node name
          = (Raise (new_exc AttributeError "name"),
             (self', with_parent child_node (Some self)))
          /\ body self' = Some (b ++ [with_parent child_node (Some self)])
          /\ locals self' = locals self).
Proof.
  intros Hname. unfold add_local_node, _append_node.
  rewrite bool_decide_eq_false_2 by exact Hname. split.
  - intros ->. eexists. split; reflexivity.
  - intros b -> Hn. rewrite name_or_with_parent, Hn.
    eexists. split; [reflexivity|]. split; reflexivity.
Qed.

Lemma add_local_node_failures_witness :
  exists e, add_local_node demo_lambda anonymous_stmt None
            = (Raise e, (demo_lambda, anonymous_stmt))
            /\ isinstance e AttributeError = true.
Proof.
  apply (proj1 (add_local_node_failures demo_lambda anonymous_stmt None
                  ltac:(discriminate))).
  reflexivity.
Defined.

(** ** The upward walk *)

Lemma enclosing_non_class_not_class (pscope : option NodeNG) :
  forall p, enclosing_non_class pscope = Ok (Some p) -> is_ClassDef p = false.
Proof.
  funelim (enclosing_non_class pscope); intros q Hq; try discriminate.
  - injection Hq as <-. assumption.
  - eauto.
Qed.

Section Walk.
Context `{Collaborators}.

Lemma walk_owner (node : NodeNG) (name : string) :
  (forall n r, builtin_lookup n = Ok r -> is_ClassDef (fst r) = false) ->
  forall self offset r,
    _scope_lookup self node name offset = Ok r ->
    is_ClassDef (fst r) = false
    \/ (fst r = self /\ exists s ss, own_stmts self node name offset = Ok (s :: ss)).
Proof.
  intros Hbuiltin self.
  induction self as [self IH] using NodeNG_height_ind. intros offset r.
  rewrite _scope_lookup_unfold.
  destruct (own_stmts self node name offset) as [[|s ss]|e] eqn:Hown;
    [| intros [= <-]; right; eauto | discriminate].
  destruct (parent_scope self) as [ps|e] eqn:Hps; [|discriminate].
  destruct (enclosing_non_class ps) as [[p|]|e] eqn:Hwalk; [| |discriminate].
  - intros Hr. left.
    pose proof (enclosing_non_class_not_class _ _ Hwalk) as Hp.
    pose proof (enclosing_non_class_measure _ _ Hwalk) as Hm.
    pose proof (parent_scope_measure _ _ Hps) as Hh. simpl in Hm.
    destruct (IH p ltac:(lia) 0%Z r Hr) as [Hc|[Heq _]]; [exact Hc|].
    now rewrite Heq.
  - intros Hr. left. exact (Hbuiltin _ _ Hr).
Qed.

(** X5 — A class never owns a name found by the upward walk.  Provided
    the built-in scope is not a class: when [name] is not visible in the
    scope where the lookup starts, the scope returned with the statements
    is never a [ClassDef], whatever the tree above looks like. *)
Theorem walk_never_returns_class (self node : NodeNG) (name : string) (offset : Z)
    (r : NodeNG * list NodeNG) :
  (forall n r', builtin_lookup n = Ok r' -> is_ClassDef (fst r') = false) ->
  own_stmts self node name offset = Ok [] ->
  _scope_lookup self node name offset = Ok r ->
  is_ClassDef (fst r) = false.
Proof.
  intros Hbuiltin Hown Hr.
  destruct (walk_owner node name Hbuiltin self offset r Hr)
    as [Hc|(_ & s & ss & Hs)]; [exact Hc | congruence].
Qed.

(** X6 — A [KeyError] raised inside the statement filter reads as "not
    bound here".  When the scope binds [name] and [_filter_stmts] raises
    on its statements: a [KeyError] is swallowed and the lookup goes on
    exactly as from the same scope with an empty table; any other
    exception is raised to the caller. *)
Theorem filter_errors (self node : NodeNG) (name : string) (offset : Z)
    (l : list NodeNG) (e : PyExc) :
  dict_get (locals self) name = Some l ->
  _filter_stmts node l self offset = Raise e ->
  (isinstance e KeyError = true ->
     _scope_lookup self node name offset
     = _scope_lookup (with_locals self []) node name offset)
  /\ (isinstance e KeyError = false ->
        _scope_lookup self node name offset = Raise e).
Proof.
  intros Hl Hf. rewrite !_scope_lookup_unfold.
  unfold own_stmts, dict_getitem. rewrite Hl, Hf. simpl. split; intros ->.
  - destruct self; reflexivity.
  - reflexivity.
Qed.

(** X7 — The offset stays in the scope where the lookup starts.  When
    that scope does not bind [name], the result is the same for every
    offset: enclosing scopes are always consulted with the default
    offset. *)
Theorem offset_is_local (self node : NodeNG) (name : string) (o1 o2 : Z) :
  dict_get (locals self) name = None ->
  _scope_lookup self node name o1 = _scope_lookup self node name o2.
Proof.
  intros Hl. rewrite !_scope_lookup_unfold.
  unfold own_stmts, dict_getitem. rewrite Hl. reflexivity.
Qed.

End Walk.

Lemma walk_never_returns_class_witness :
  is_ClassDef (fst (demo_builtins, @nil NodeNG)) = false.
Proof.
  apply (@walk_never_returns_class keep_all demo_function demo_function "x" 0).
  - intros n r' [= <-]. reflexivity.
  - reflexivity.
  - reflexivity.
Defined.

Lemma filter_errors_witness :
  @_scope_lookup key_error_filter demo_module demo_function "y" 0
  = @_scope_lookup key_error_filter (with_locals demo_module []) demo_function "y" 0.
Proof.
  apply (proj1 (@filter_errors key_error_filter demo_module demo_function "y" 0
                  [stmt_named "y" None] (new_exc KeyError "inside the filter")
                  eq_refl eq_refl)).
  reflexivity.
Defined.

Lemma offset_is_local_witness :
  @_scope_lookup zero_offset_filter demo_function demo_function "y" 0
  = @_scope_lookup zero_offset_filter demo_function demo_function "y" (-1).
Proof.
  apply (@offset_is_local zero_offset_filter). reflexivity.
Defined.

End MixinExtras.

(* ===================================================================== *)
(** * Further properties of the manager                                   *)
(* ===================================================================== *)

Module ManagerExtras.
Import Manager ManagerTerms MoreManagerTerms ManagerFacts.

(** ** Names and paths *)

Lemma split_on_cons (c : ascii) (s : string) :
  exists h t, split_on c s = h :: t.
Proof.
  destruct s as [|a s]; simpl; [eauto|].
  destruct (Ascii.eqb a c); [eauto|].
  destruct (split_on c s); eauto.
Qed.

(** X8 — Splitting a dotted name and joining it again gives the name back.
    [modname.split(".")], as [file_from_module_name] passes it to the spec
    resolver, is never empty, none of its parts contains a dot, and
    [".".join] of it, as [ast_from_file] derives a name from parts, is
    [modname] again. *)
Theorem split_join_round_trip (modname : string) :
  String.concat "." (split_on "."%char modname) = modname
  /\ split_on "."%char modname <> []
  /\ Forall (fun part => ~ In "."%char (list_ascii_of_string part))
            (split_on "."%char modname).
Proof.
  split; [|split].
  - induction modname as [|a s IH]; simpl; [reflexivity|].
    destruct (Ascii.eqb_spec a "."%char) as [->|Hne].
    + destruct (split_on_cons "."%char s) as (h & t & Hs). rewrite Hs in *.
      simpl. cbn [String.concat] in IH. rewrite IH. reflexivity.
    + destruct (split_on_cons "."%char s) as (h & t & Hs). rewrite Hs in *.
      cbn [String.concat] in *. destruct t; simpl; now rewrite <- IH.
  - destruct (split_on_cons "."%char modname) as (h & t & ->). discriminate.
  - induction modname as [|a s IH]; simpl.
    + constructor; [intros [] | constructor].
    + destruct (Ascii.eqb_spec a "."%char) as [->|Hne].
      * constructor; [intros [] | exact IH].
      * destruct (split_on_cons "."%char s) as (h & t & Hs). rewrite Hs in *.
        inversion IH as [|? ? Hh Ht]; subst. constructor; [|exact Ht].
        simpl. intros [E|Hin]; [congruence | exact (Hh Hin)].
Qed.





Section Archive.
Context {W : Type} `{Env W}.


(** X10 — A path outside every archive is left alone.  When [filepath]
    does not contain any archive suffix followed by the separator,
    [zip_import_data] returns [None] and nothing has happened: no archive
    was opened, the state and the trace are unchanged. *)
Theorem zip_import_plain_path (self : AstroidManager) (filepath : string)
    (m : Machine W) :
  Forall (fun ext =>
            rsplit_once (String.append ext (String os_path_sep EmptyString))
                        filepath = None)
         ZIP_IMPORT_EXTS ->
  zip_import_data self (Some filepath) m = (Ok None, m).
Proof.
  unfold zip_import_data. generalize ZIP_IMPORT_EXTS as exts.
  induction exts as [|ext rest IH]; intros Hall; simpl; [reflexivity|].
  inversion Hall as [|? ? Hext Hrest]; subst.
  unfold unpack_rsplit. rewrite Hext. simpl. exact (IH Hrest).
Qed.

End Archive.


Lemma zip_import_plain_path_witness :
  @zip_import_data nat plain_env a_manager (Some "pkg/mod.py") start
  = (Ok None, start).
Proof.
  apply (@zip_import_plain_path nat plain_env).
  repeat constructor.
Defined.

(** ** The module cache and the spec cache *)

Section Caches.
Context {W : Type} `{Env W}.

Implicit Types (m : Machine W).

(** X11 — The module cache keeps the first tree and answers for it.
    [cache_module] stores a tree under its name only when the name is
    free, and touches no other name; afterwards [ast_from_module_name] on
    that name returns the tree that was cached first, with or without a
    context file, and leaves state, world and trace as they are. *)
Theorem cache_module_then_resolve (d : nat) (self : AstroidManager)
    (tree : AstModule) (context_file : option string) m :
  let m1 := snd (cache_module tree m) in
  let kept := default tree (astroid_cache (brain (state m)) !! name tree) in
  astroid_cache (brain (state m1)) !! name tree = Some kept
  /\ (forall n, n <> name tree ->
        astroid_cache (brain (state m1)) !! n
        = astroid_cache (brain (state m)) !! n)
  /\ ast_from_module_name (S d) self (name tree) context_file m1 = (Ok kept, m1).
Proof.
  intros m1 kept.
  assert (Hkept : astroid_cache (brain (state m1)) !! name tree = Some kept).
  { subst m1 kept. unfold cache_module. msimpl.
    destruct (astroid_cache (brain (state m)) !! name tree) as [old|] eqn:E; simpl.
    - exact E.
    - apply lookup_insert_eq. }
  split; [exact Hkept|]. split.
  - intros n Hn. subst m1. unfold cache_module. msimpl.
    destruct (astroid_cache (brain (state m)) !! name tree); simpl; [reflexivity|].
    now rewrite lookup_insert_ne.
  - simpl. unfold ast_from_module_name_body. msimpl. rewrite Hkept. reflexivity.
Qed.

(** X12 — A spec that was found is looked up once.  When the key is not
    cached and [file_info_from_modpath] returns a spec, the call returns
    it and stores it; after any further lookups, a lookup of the same key
    returns the same spec, changes nothing, and the trace shows exactly
    one spec lookup for the key since the first call. *)
Theorem found_spec_cached modname contextfile m sp w :
  spec_cache m !! (modname, contextfile) = None ->
  file_info_from_modpath (split_on "."%char modname) contextfile (world (state m))
    = (Ok sp, w) ->
  let m1 := snd (file_from_module_name modname contextfile m) in
  fst (file_from_module_name modname contextfile m) = Ok (CachedSpec sp)
  /\ forall ks,
       file_from_module_name modname contextfile (run_lookups ks m1)
         = (Ok (CachedSpec sp), run_lookups ks m1)
       /\ spec_lookups (modname, contextfile) (trace (run_lookups ks m1))
          = spec_lookups (modname, contextfile) (trace m) + 1.
Proof.
  intros Hc Hf m1.
  assert (Hrun : file_from_module_name modname contextfile m =
                 (Ok (CachedSpec sp),
                  mkMachine
                    (mkState
                       (with_mod_file_cache (brain (state m))
                          (<[(modname, contextfile) := CachedSpec sp]>
                             (_mod_file_cache (brain (state m)))))
                       (visitors (state m)) w)
                    (trace m ++ [EvSpecLookup modname contextfile]))).
  { unfold file_from_module_name, spec_cache in *. msimpl.
    rewrite Hc. simpl. rewrite Hf. reflexivity. }
  subst m1. rewrite Hrun. simpl. split; [reflexivity|]. intros ks.
  match goal with |- context [run_lookups ks ?mm] => set (m1 := mm) end.
  assert (Hstored : spec_cache m1 !! (modname, contextfile) = Some (CachedSpec sp)).
  { unfold spec_cache, m1. simpl. apply lookup_insert_eq. }
  destruct (run_lookups_keep_entry ks _ _ _ Hstored eq_refl) as [Hk Ht]. split.
  - unfold file_from_module_name. unfold spec_cache in Hk. msimpl.
    rewrite Hk. reflexivity.
  - rewrite Ht. unfold m1. simpl. rewrite spec_lookups_snoc. simpl.
    case_bool_decide; [lia | congruence].
Qed.

End Caches.

Lemma found_spec_cached_witness :
  @file_from_module_name nat source_env "pkg" None
    (@run_lookups nat source_env [("other", None); ("pkg", None)]
       (snd (first_lookup source_env)))
  = (Ok (CachedSpec (mkModuleSpec PY_SOURCE (Some "pkg/mod.py") None)),
     @run_lookups nat source_env [("other", None); ("pkg", None)]
       (snd (first_lookup source_env))).
Proof.
  apply (@found_spec_cached nat source_env "pkg" None start
           (mkModuleSpec PY_SOURCE (Some "pkg/mod.py") None) 1 eq_refl eq_refl).
Defined.

(** ** Resolution by name *)

Section ByName.
Context {W : Type} `{Env W}.

Implicit Types (m : Machine W).

(** X13 — Specs without a loadable file end in an [AstroidImportError].
    With no hook registered: a spec classified as compiled-without-source
    makes [ast_from_module_name] raise "Unable to load compiled module",
    carrying the name and the location; a file-backed spec without a
    location makes it raise "Can't find a file for module".  No builder is
    called in either case. *)
Theorem specs_without_loadable_file (d : nat) (self : AstroidManager)
    (modname : string) (context_file : option string) (m m0 m1 : Machine W)
    (cleanup : M W unit) (sp : ModuleSpec) :
  astroid_cache (brain (state m)) !! modname = None ->
  modname <> "__main__" ->
  enters_try context_file m m0 cleanup ->
  file_from_module_name modname context_file m0 = (Ok (CachedSpec sp), m1) ->
  _failed_import_hooks (brain (state m1)) = [] ->
  (type sp = PY_COMPILED ->
     ast_from_module_name (S d) self modname context_file m
     = leave cleanup (Raise (compiled_module_error modname (location sp)), m1))
  /\ (In (type sp) [PY_SOURCE; PKG_DIRECTORY; PY_CODERESOURCE; PY_RESOURCE] ->
        location sp = None ->
        ast_from_module_name (S d) self modname context_file m
        = leave cleanup (Raise (no_file_error modname), m1)).
Proof.
  intros Hmiss Hmain Henter Hspec Hhooks.
  rewrite (ast_from_module_name_miss _ _ _ _ _ _ _ Hmiss Hmain Henter).
  unfold resolve_or_hooks, resolve_spec, dispatch_on_type. split.
  - intros Ht. f_equal. unfold try_catch, mbind, M_bind, bind.
    rewrite Hspec. unfold ret at 1. rewrite Ht. unfold raise at 1. simpl.
    unfold get_brain. rewrite Hhooks. reflexivity.
  - intros Ht Hloc. f_equal. unfold try_catch, mbind, M_bind, bind.
    rewrite Hspec. unfold ret at 1. rewrite Hloc.
    simpl in Ht.
    destruct Ht as [<-|[<-|[<-|[<-|[]]]]]; unfold ret, raise; simpl;
      unfold get_brain; rewrite Hhooks; reflexivity.
Qed.

(** X14 — A failing native load is wrapped with its cause.  For a spec
    classified as a C built-in, whatever exception
    [load_module_from_name] raises, the [try] block raises an
    [AstroidImportError] carrying the module name and the spec's location,
    whose [__cause__] is that exception. *)
Theorem failed_native_load_is_wrapped (d : nat) (self : AstroidManager)
    (modname : string) (context_file : option string) (m m1 : Machine W)
    (sp : ModuleSpec) (e : PyExc) (w : W) :
  file_from_module_name modname context_file m = (Ok (CachedSpec sp), m1) ->
  type sp = C_BUILTIN ->
  load_module_from_name modname (world (state m1)) = (Raise e, w) ->
  exists err,
    resolve_spec (ast_from_file d self) (ast_from_module d self)
                 self modname context_file m
    = (Raise err,
       mkMachine (mkState (brain (state m1)) (visitors (state m1)) w) (trace m1))
    /\ exc_class err = AstroidImportError
    /\ exc_modname err = Some modname
    /\ exc_path err = location sp
    /\ exc_cause err = Some e.
Proof.
  intros Hspec Ht Hload.
  unfold resolve_spec, dispatch_on_type. unfold mbind, M_bind, bind.
  rewrite Hspec. unfold ret at 1. rewrite Ht. simpl.
  unfold try_catch, in_world, ret. simpl. rewrite Hload.
  rewrite isinstance_Exception. unfold raise.
  eexists. split; [reflexivity|]. repeat split.
Qed.

(** X15 — Without fallback, [ast_from_file] never resolves by name.  With
    [fallback=False] the call behaves the same at every recursion depth:
    it returns the cached tree, builds from source, or raises, and never
    re-enters [ast_from_module_name]. *)
Theorem no_fallback_no_recursion (d d' : nat) (self : AstroidManager)
    (filepath : string) (modname : option string) (source : bool) m :
  ast_from_file (S d) self filepath modname false source m
  = ast_from_file (S d') self filepath modname false source m.
Proof.
  simpl. unfold ast_from_file_body, build_or_fall_back.
  unfold mbind, M_bind, bind.
  destruct (source_form_and_name filepath modname source m)
    as [[[[fp src] mn]|e] m1]; [|reflexivity].
  unfold get_brain.
  destruct (astroid_cache (brain (state m1)) !! mn) as [c|];
    [destruct (bool_decide (file c = Some fp))|]; destruct src; reflexivity.
Qed.

(** X16 — [ast_from_module] falls back to introspection on
    [AttributeError].  For a module not yet cached under [modname]: when
    the live module has no [__file__], and also when [ast_from_file] on
    its source file raises an [AttributeError] of its own, the error is
    swallowed and the tree is built from the live object by
    [module_build], in the state the failed attempt left. *)
Theorem ast_from_module_swallows_attribute_errors (d : nat)
    (self : AstroidManager) (module : PyObject) (modname : string) m :
  truthy modname = true ->
  astroid_cache (brain (state m)) !! modname = None ->
  (forall e, __file__ module = Raise e -> isinstance e AttributeError = true ->
     ast_from_module (S d) self module (Some modname) m
     = in_state (module_build self module modname) m)
  /\ (forall filepath e m1,
        __file__ module = Ok filepath ->
        is_python_source filepath = true ->
        ast_from_file d self filepath (Some modname) true false m = (Raise e, m1) ->
        isinstance e AttributeError = true ->
        ast_from_module (S d) self module (Some modname) m
        = in_state (module_build self module modname) m1).
Proof.
  intros Hname Hmiss. split.
  - intros e Hfile He. simpl. unfold ast_from_module_body. simpl.
    rewrite Hname. msimpl. rewrite Hmiss, Hfile. simpl. rewrite He. reflexivity.
  - intros filepath e m1 Hfile Hsrc Hrun He. simpl.
    unfold ast_from_module_body. simpl. rewrite Hname.
    unfold mbind, M_bind, bind, fmap, M_fmap, bind, ret, get_brain, eval, try_catch.
    rewrite Hmiss, Hfile, Hsrc, Hrun, He. reflexivity.
Qed.

End ByName.

Lemma specs_without_loadable_file_witness :
  @ast_from_module_name nat compiled_env 1 a_manager "pkg.mod" None start
  = (Raise (compiled_module_error "pkg.mod" (Some "pkg/mod.pyc")),
     snd (@file_from_module_name nat compiled_env "pkg.mod" None start)).
Proof.
  apply (proj1 (@specs_without_loadable_file nat compiled_env 0 a_manager
                  "pkg.mod" None start start
                  (snd (@file_from_module_name nat compiled_env "pkg.mod" None start))
                  (ret tt) (mkModuleSpec PY_COMPILED (Some "pkg/mod.pyc") None)
                  eq_refl ltac:(discriminate) (conj eq_refl eq_refl)
                  eq_refl eq_refl)
           eq_refl).
Defined.

Lemma failed_native_load_is_wrapped_witness :
  exists err,
    @resolve_spec nat builtin_env (@ast_from_file nat builtin_env 0 a_manager)
       (@ast_from_module nat builtin_env 0 a_manager) a_manager "zlib" None start
    = (Raise err, snd (@file_from_module_name nat builtin_env "zlib" None start))
    /\ exc_class err = AstroidImportError
    /\ exc_modname err = Some "zlib"
    /\ exc_path err = None
    /\ exc_cause err = Some (new_exc ImportError "no module").
Proof.
  apply (@failed_native_load_is_wrapped nat builtin_env 0 a_manager "zlib" None
           start (snd (@file_from_module_name nat builtin_env "zlib" None start))
           (mkModuleSpec C_BUILTIN None None)
           (new_exc ImportError "no module") 1);
    reflexivity.
Defined.

Lemma ast_from_module_swallows_attribute_errors_witness :
  @ast_from_module nat plain_env 1 a_manager nameless (Some "live") start
  = in_state (@module_build nat plain_env a_manager nameless "live") start.
Proof.
  apply (proj1 (@ast_from_module_swallows_attribute_errors nat plain_env 0
                  a_manager nameless "live" start eq_refl eq_refl)
           (new_exc AttributeError "__file__"));
    reflexivity.
Defined.

(** ** Extension modules, live objects, the reset *)

Section Loading.
Context {W : Type} `{Env W}.

Implicit Types (m : Machine W).

(** X17 — An extension module that may not be loaded is never imported.
    For a spec classified as a C extension, when the manager does not
    always load extensions, the module is not a standard one and is not
    on the whitelist, the [try] block returns the stub built from the
    empty string, and [load_module_from_name] is not called. *)
Theorem unloadable_extension_gives_stub (d : nat) (self : AstroidManager)
    (modname : string) (context_file : option string) (m m1 : Machine W)
    (sp : ModuleSpec) (w : W) :
  file_from_module_name modname context_file m = (Ok (CachedSpec sp), m1) ->
  type sp = C_EXTENSION ->
  self_always_load_extensions self = false ->
  is_standard_module modname (world (state m1)) = (Ok false, w) ->
  is_module_name_part_of_extension_package_whitelist
    modname (extension_package_whitelist (brain (state m1))) = false ->
  resolve_spec (ast_from_file d self) (ast_from_module d self)
               self modname context_file m
  = in_state (string_build self (Some "") modname None)
      (mkMachine (mkState (brain (state m1)) (visitors (state m1)) w) (trace m1)).
Proof.
  intros Hspec Ht Halways Hstd Hwl.
  unfold resolve_spec, dispatch_on_type, _can_load_extension, _build_stub_module.
  unfold mbind, M_bind, bind. rewrite Hspec. unfold ret at 1. rewrite Ht.
  simpl. rewrite Halways. unfold in_world, bind. rewrite Hstd.
  unfold get_brain, ret. simpl. rewrite Hwl. simpl.
  unfold fmap, M_fmap, bind, in_state, ret. simpl.
  destruct (string_build self (Some "") modname None _) as [[tree|e] s];
    reflexivity.
Qed.

(** X18 — [infer_ast_from_something] turns failed attribute accesses into
    astroid errors.  With [klass] the object itself for a type and its
    class otherwise: when [klass.__module__] raises, or when it is there
    and [klass.__name__] raises, the call raises an
    [AstroidBuildingError] for an [AttributeError] and an
    [AstroidImportError] for any other exception, chained to the original
    and carrying the safe repr of [klass]; nothing is resolved. *)
Theorem infer_reports_attribute_failures (d : nat) (self : AstroidManager)
    (obj c : PyObject) m :
  __class__ obj = Ok c ->
  let klass := if is_type obj then obj else c in
  (forall e, __module__ klass = Raise e ->
     exists err, infer_ast_from_something d self obj m = (Raise err, m)
                 /\ reports klass e err)
  /\ (forall modname e, __module__ klass = Ok modname -> __name__ klass = Raise e ->
        exists err, infer_ast_from_something d self obj m = (Raise err, m)
                    /\ reports klass e err).
Proof.
  intros Hc klass. subst klass.
  unfold infer_ast_from_something, hasattr_class, reports. rewrite Hc.
  destruct (is_type obj) eqn:Ht;
    (split; [intros e Hmod | intros modname e Hmod Hname]);
    unfold mbind, M_bind, bind, try_catch2, eval, ret, raise; cbn [andb negb];
    rewrite ?Hc, Hmod, ?Hname;
    (destruct (isinstance e AttributeError) eqn:Ha;
     [|rewrite isinstance_Exception]);
    (eexists; split; [reflexivity|]; repeat split).
Qed.

(** X19 — [ast_from_class] with a module name takes the first definition.
    Given [modname], [klass.__module__] is not read; for a module already
    cached the call returns the first node [getattr] finds for
    [klass.__name__], and an empty result raises [IndexError], which is
    not an astroid error. *)
Theorem ast_from_class_first_definition (d : nat) (self : AstroidManager)
    (klass : PyObject) (modname attr : string) (tree : AstModule)
    (found : list AstModule) (s : State W) m :
  astroid_cache (brain (state m)) !! modname = Some tree ->
  __name__ klass = Ok attr ->
  module_getattr tree attr (state m) = (Ok found, s) ->
  ast_from_class (S d) self klass (Some modname) m
  = (match found with
     | first :: _ => Ok first
     | [] => Raise (new_exc IndexError "list index out of range")
     end, mkMachine s (trace m)).
Proof.
  intros Hc Hname Hget. unfold ast_from_class, first_of. simpl.
  unfold ast_from_module_name_body. msimpl. rewrite Hc, Hname. simpl.
  rewrite Hget. destruct found; reflexivity.
Qed.

(** X20 — Only [.py] entries of the brain directory are reloaded: the
    loop of [clear_cache] behaves on a directory listing as on its
    entries with the [.py] suffix. *)
Theorem only_python_files_reloaded (entries : list (string * string)) m :
  reload_brain_plugins entries m
  = reload_brain_plugins (List.filter is_plugin entries) m.
Proof.
  revert m. induction entries as [|[stem suffix] rest IH]; intros m;
    [reflexivity|].
  unfold is_plugin in *. cbn [List.filter snd].
  destruct (String.eqb suffix ".py") eqn:E.
  - cbn [reload_brain_plugins]. rewrite E.
    unfold mbind, M_bind, bind.
    match goal with |- match ?c with _ => _ end = _ => destruct c as [[u|e] m'] end;
      [apply IH | reflexivity].
  - cbn [reload_brain_plugins]. rewrite E.
    unfold mbind, M_bind, bind, ret. apply IH.
Qed.

Lemma quiet_ret {A} (a : A) : quiet (ret a : M W A).
Proof. intros m. reflexivity. Qed.

Lemma quiet_bind {A B} (c : M W A) (k : A -> M W B) :
  quiet c -> (forall a, quiet (k a)) -> quiet (bind c k).
Proof.
  intros Hc Hk m. unfold bind. specialize (Hc m).
  destruct (c m) as [[a|e] m']; simpl in *; [|exact Hc].
  now rewrite (Hk a m').
Qed.

Lemma quiet_in_world {A} (f : W -> Result A * W) : quiet (in_world f).
Proof.
  intros m. unfold in_world. destruct (f (world (state m))); reflexivity.
Qed.

Lemma quiet_in_state {A} (f : State W -> Result A * State W) :
  keeps_registry f -> quiet (in_state f).
Proof.
  intros Hf m. unfold in_state. specialize (Hf (state m)).
  destruct (f (state m)); exact Hf.
Qed.

Lemma quiet_update {A} (f : Brain -> Brain) (k : M W A) :
  (forall b, _mod_file_cache (f b) = _mod_file_cache b
             /\ _failed_import_hooks (f b) = _failed_import_hooks b) ->
  quiet k ->
  quiet (bind get_brain (fun b => bind (set_brain (f b)) (fun _ => k))).
Proof.
  intros Hf Hk m. unfold bind, get_brain, set_brain. rewrite Hk.
  unfold registry_of. simpl. destruct (Hf (brain (state m))) as [-> ->].
  reflexivity.
Qed.

Lemma quiet_reload (entries : list (string * string)) :
  (forall sp obj, keeps_registry (exec_module sp obj)) ->
  quiet (reload_brain_plugins entries).
Proof.
  intros Hexec. induction entries as [|[stem suffix] rest IH];
    [apply quiet_ret|].
  cbn [reload_brain_plugins]. apply quiet_bind; [|intros _; exact IH].
  destruct (String.eqb suffix ".py"); [|apply quiet_ret].
  apply quiet_bind; [apply quiet_in_world|]. intros sp.
  apply quiet_bind; [apply quiet_in_world|]. intros obj.
  apply quiet_in_state, Hexec.
Qed.

(** X21 — [clear_cache] leaves the spec cache and the failure hooks in
    place.  Provided the bootstrap and the brain plugins do not touch
    them, every entry of [_mod_file_cache], cached failures included, and
    every registered hook is still there after the reset, whether the
    reset returns or raises. *)
Theorem clear_cache_keeps_registry (self : AstroidManager) m :
  keeps_registry _astroid_bootstrapping ->
  (forall sp obj, keeps_registry (exec_module sp obj)) ->
  registry_of (state (snd (clear_cache self m))) = registry_of (state m).
Proof.
  intros Hboot Hexec. revert m. change (quiet (clear_cache self)).
  unfold clear_cache.
  apply (quiet_update (fun b => with_astroid_cache b ∅));
    [intros b; split; reflexivity|].
  apply quiet_bind; [intros m; reflexivity|]. intros r.
  apply (quiet_update (fun b => with_transform b r));
    [intros b; split; reflexivity|].
  apply quiet_bind; [apply quiet_in_state, Hboot|]. intros _.
  apply quiet_bind; [apply quiet_in_world|]. intros entries.
  apply quiet_reload, Hexec.
Qed.

End Loading.

Lemma build_keeps_registry (tree : AstModule) : keeps_registry (build tree).
Proof.
  intros s. unfold build, registry_of.
  destruct (astroid_cache (brain s) !! name tree); reflexivity.
Qed.

Lemma unloadable_extension_gives_stub_witness :
  @resolve_spec nat extension_env (@ast_from_file nat extension_env 0 a_manager)
     (@ast_from_module nat extension_env 0 a_manager) a_manager "pkg.ext" None
     start
  = in_state (@string_build nat extension_env a_manager (Some "") "pkg.ext" None)
      (snd (@file_from_module_name nat extension_env "pkg.ext" None start)).
Proof.
  apply (@unloadable_extension_gives_stub nat extension_env 0 a_manager
           "pkg.ext" None start
           (snd (@file_from_module_name nat extension_env "pkg.ext" None start))
           (mkModuleSpec C_EXTENSION (Some "pkg/ext.so") None) 1
           eq_refl eq_refl eq_refl eq_refl eq_refl).
Defined.

Lemma infer_reports_attribute_failures_witness :
  exists err,
    @infer_ast_from_something nat plain_env 1 a_manager nameless start
    = (Raise err, start)
    /\ reports nameless (new_exc AttributeError "__name__") err.
Proof.
  apply (proj2 (@infer_reports_attribute_failures nat plain_env 1 a_manager
                  nameless type_object start eq_refl)
           "mod" (new_exc AttributeError "__name__") eq_refl eq_refl).
Defined.

Lemma ast_from_class_first_definition_witness :
  @ast_from_class nat plain_env 1 a_manager type_object (Some "mod")
     (with_cached start stale_tree)
  = (Ok stale_tree, with_cached start stale_tree).
Proof.
  apply (@ast_from_class_first_definition nat plain_env 0 a_manager type_object
           "mod" "type" stale_tree [stale_tree]
           (state (with_cached start stale_tree)) (with_cached start stale_tree)
           eq_refl eq_refl eq_refl).
Defined.

Lemma clear_cache_keeps_registry_witness :
  registry_of
    (state (snd (@clear_cache nat plain_env a_manager
                   (snd (first_lookup plain_env)))))
  = registry_of (state (snd (first_lookup plain_env))).
Proof.
  apply (@clear_cache_keeps_registry nat plain_env a_manager
           (snd (first_lookup plain_env))).
  - intros s. apply (build_keeps_registry (mkAstModule "builtins" None 0) s).
  - intros sp obj s. reflexivity.
Defined.

(** ** Building from a file *)

Section FromFile.
Context {W : Type} `{Env W}.

Implicit Types (m : Machine W).

(** X22 — A path that has a source file is built from that file.  When
    [get_source_file] finds the source [fp] and no tree is cached under
    the module name, [ast_from_file] returns the builder's [file_build]
    of [fp], whatever [fallback] and [source] were passed and at any
    depth.  When no name is given and [modpath_from_file] raises an
    [ImportError], the source path itself serves as the module name. *)
Theorem source_file_is_built (d : nat) (self : AstroidManager)
    (filepath : string) (fallback source : bool) m (fp : string) (w : W) :
  get_source_file filepath (world (state m)) = (Ok fp, w) ->
  (forall modname,
     astroid_cache (brain (state m)) !! modname = None ->
     ast_from_file (S d) self filepath (Some modname) fallback source m
     = in_state (file_build self fp modname)
         (mkMachine (mkState (brain (state m)) (visitors (state m)) w) (trace m)))
  /\ (forall e w',
        modpath_from_file fp w = (Raise e, w') ->
        isinstance e ImportError = true ->
        astroid_cache (brain (state m)) !! fp = None ->
        ast_from_file (S d) self filepath None fallback source m
        = in_state (file_build self fp fp)
            (mkMachine (mkState (brain (state m)) (visitors (state m)) w')
                       (trace m))).
Proof.
  intros Hsrc. split.
  - intros modname Hmiss. simpl.
    unfold ast_from_file_body, source_form_and_name, build_or_fall_back.
    unfold mbind, M_bind, bind, try_catch, in_world, ret, get_brain.
    rewrite Hsrc. simpl. rewrite Hmiss. reflexivity.
  - intros e w' Hpath He Hmiss. simpl.
    unfold ast_from_file_body, source_form_and_name, build_or_fall_back.
    unfold mbind, M_bind, bind, try_catch, in_world, ret, get_brain.
    rewrite Hsrc. simpl. rewrite Hpath, He. simpl. rewrite Hmiss. reflexivity.
Qed.

End FromFile.

Lemma source_file_is_built_witness :
  @ast_from_file nat source_env 1 a_manager "pkg/mod.py" (Some "pkg.mod")
     false false start
  = in_state (@file_build nat source_env a_manager "pkg/mod.py" "pkg.mod") start.
Proof.
  apply (proj1 (@source_file_is_built nat source_env 0 a_manager "pkg/mod.py"
                  false false start "pkg/mod.py" 0 eq_refl)
           "pkg.mod" eq_refl).
Defined.

End ManagerExtras.
